(** * getfw.py: gathering and patching firmware for the Surface Pro X (SQ2)

    A shallow embedding of [scripts/getfw.py] and the properties of its
    source/patch orchestration: file-map normalisation, the logger, the
    lookup of a driver directory by name prefix, the gather loop, the patch
    loop and the four patches.

    Python values are modelled in their JSON-like fragment (None, int, str,
    list, dict); paths as [pathlib.PurePosixPath] does (a root flag and a
    list of components); exceptions as an error result; everything the
    script does to the machine as a state transformer over a [World]. *)

From Stdlib Require Import ZArith List String Ascii Lia Permutation.
From stdpp Require Import base decidable countable strings pretty list gmap fin_maps.

Open Scope string_scope.
Open Scope list_scope.
Open Scope Z_scope.

(* ===================================================================== *)
(** ** Exceptions and results *)
(* ===================================================================== *)

(** The exceptions the script raises itself, the ones the interpreter
    raises on its behalf, and the ones that come back from library calls. *)
Inductive exn : Type :=
| Exception (msg : string)          (* raise Exception("...") *)
| TypeError (msg : string)
| IndexError (msg : string)
| AttributeError (msg : string)
| NotImplementedError
| SystemExit (code : Z)
| FileNotFoundError (what : string)
| FileExistsError (what : string)
| IsADirectoryError (what : string)
| NotADirectoryError (what : string)
| OSError (what : string)
| URLError (what : string).

Inductive result (A : Type) : Type :=
| Ok (a : A)
| Raise (e : exn).
Arguments Ok {A} a.
Arguments Raise {A} e.

Definition rbind {A B} (r : result A) (k : A -> result B) : result B :=
  match r with
  | Ok a => k a
  | Raise e => Raise e
  end.

Declare Scope py_scope.
Delimit Scope py_scope with py.
Notation "'let!' x ':=' r 'in' k" := (rbind r (fun x => k))
  (at level 10, x name, r at level 100, k at level 200) : py_scope.
Open Scope py_scope.

Definition is_ok {A} (r : result A) : bool :=
  match r with Ok _ => true | Raise _ => false end.

(* ===================================================================== *)
(** ** Python values *)
(* ===================================================================== *)

(** Hashable atoms: what may be the key of a dict. *)
Inductive pykey : Type :=
| KNone
| KInt (z : Z)
| KStr (s : string).

#[global] Instance pykey_eq_dec : EqDecision pykey.
Proof. solve_decision. Defined.

(** A dict keeps its entries in insertion order ([items()] walks them in
    that order), so it is an association list. *)
#[warnings="-register-all"]
Inductive pyval : Type :=
| PyNone
| PyInt (z : Z)
| PyStr (s : string)
| PyList (xs : list pyval)
| PyDict (d : list (pykey * pyval)).

Abbreviation dict := (list (pykey * pyval)).

(** [hash(x)]: lists and dicts are unhashable. *)
Definition hash_key (v : pyval) : option pykey :=
  match v with
  | PyNone => Some KNone
  | PyInt z => Some (KInt z)
  | PyStr s => Some (KStr s)
  | PyList _ => None
  | PyDict _ => None
  end.

Definition val_of_key (k : pykey) : pyval :=
  match k with
  | KNone => PyNone
  | KInt z => PyInt z
  | KStr s => PyStr s
  end.

(** [str(k)], as an f-string renders a key. *)
Definition str_of_key (k : pykey) : string :=
  match k with
  | KNone => "None"
  | KInt z => pretty z
  | KStr s => s
  end.

(** [d[k] = v]: an existing key keeps its place, a new one goes last. *)
Fixpoint dict_set (d : dict) (k : pykey) (v : pyval) : dict :=
  match d with
  | [] => [(k, v)]
  | (k', v') :: d' =>
      if decide (k' = k) then (k', v) :: d' else (k', v') :: dict_set d' k v
  end.

(** [d.get(k)] *)
Fixpoint dict_get (d : dict) (k : pykey) : option pyval :=
  match d with
  | [] => None
  | (k', v') :: d' => if decide (k' = k) then Some v' else dict_get d' k
  end.

Definition dict_keys (d : dict) : list pykey := map fst d.

(** [{x: x for x in files}], started from the entries built so far. *)
Fixpoint dict_comp (files : list pyval) (acc : dict) : result dict :=
  match files with
  | [] => Ok acc
  | x :: rest =>
      match hash_key x with
      | Some k => dict_comp rest (dict_set acc k x)
      | None => Raise (TypeError "unhashable type")
      end
  end.

(** [d.items()] on whatever sits in an attribute. *)
Definition items (v : pyval) : result dict :=
  match v with
  | PyDict d => Ok d
  | _ => Raise (AttributeError "items")
  end.

(** Indexing a list with an int: negative indices count from the end. *)
Definition py_index {A} (l : list A) (i : Z) : result A :=
  let n := Z.of_nat (length l) in
  let j := if i <? 0 then i + n else i in
  if (0 <=? j) && (j <? n) then
    match nth_error l (Z.to_nat j) with
    | Some x => Ok x
    | None => Raise (IndexError "list index out of range")
    end
  else Raise (IndexError "list index out of range").

(** [s.replace(old, new)] for a non-empty [old]: occurrences are replaced
    left to right and do not overlap; [skip] counts the characters of the
    occurrence just replaced that are still to be dropped. *)
Fixpoint replace_from (old new : string) (skip : nat) (s : string) : string :=
  match s with
  | EmptyString => EmptyString
  | String c s' =>
      match skip with
      | S k => replace_from old new k s'
      | O =>
          if String.prefix old s
          then new +:+ replace_from old new (String.length old - 1) s'
          else String c (replace_from old new O s')
      end
  end.

Definition str_replace (s old new : string) : string := replace_from old new O s.

(* ===================================================================== *)
(** ** Paths *)
(* ===================================================================== *)

(** [pathlib.PurePosixPath]: whether the path is anchored at "/", and its
    components.  (pathlib keeps a leading "//" apart from "/"; that one
    distinction is not made here.) *)
Record Path : Type := mkPath { root : bool; parts : list string }.

#[global] Instance Path_eq_dec : EqDecision Path.
Proof. solve_decision. Defined.

#[global] Instance Path_countable : Countable Path.
Proof.
  refine (inj_countable' (fun p => (root p, parts p))
                         (fun x => mkPath (fst x) (snd x)) _).
  intros []; reflexivity.
Defined.

Definition keep_part (cur : string) : list string :=
  if decide (cur = "") then [] else if decide (cur = ".") then [] else [cur].

(** The components of a string: split at "/", empty and "." pieces dropped. *)
Fixpoint components (s : string) (cur : string) : list string :=
  match s with
  | EmptyString => keep_part cur
  | String c s' =>
      if Ascii.eqb c "/" then keep_part cur ++ components s' ""
      else components s' (cur +:+ String c EmptyString)
  end.

(** [p / s] for a str [s] *)
Definition pdiv (p : Path) (s : string) : Path :=
  if String.prefix "/" s then mkPath true (components s "")
  else mkPath (root p) (parts p ++ components s "").

Notation "p /: s" := (pdiv p s) (at level 40, left associativity) : py_scope.

(** [p / q] for a Path [q] *)
Definition pjoin (p q : Path) : Path :=
  if root q then q else mkPath (root p) (parts p ++ parts q).

(** [Path(s)] *)
Definition Path_of (s : string) : Path := pdiv (mkPath false []) s.

(** [p.name] *)
Definition name_of (p : Path) : string := List.last (parts p) "".

(** [p.parent] *)
Definition parent (p : Path) : Path := mkPath (root p) (removelast (parts p)).

(** [str(p)] *)
Definition str_of_path (p : Path) : string :=
  match root p, parts p with
  | false, [] => "."
  | false, ps => String.concat "/" ps
  | true, ps => "/" +:+ String.concat "/" ps
  end.

(** [p / v] where [p] may be [None] and [v] is any value: Python defines
    the division only between a path and a str (or another path). *)
Definition truediv (p : option Path) (v : pyval) : result Path :=
  match p, v with
  | Some p, PyStr s => Ok (pdiv p s)
  | _, _ => Raise (TypeError "unsupported operand type(s) for /")
  end.


(* ===================================================================== *)
(** ** The machine: file tree, library calls, printed lines *)
(* ===================================================================== *)

(** The file tree as the script sees it through [pathlib]: a finite map
    from paths, taken as written, to what sits there.  The working
    directory and "/" are entries like any other directory. *)
Inductive node : Type :=
| File (data : string)
| Dir
| Symlink (target : string).

#[global] Instance node_eq_dec : EqDecision node.
Proof. solve_decision. Defined.

(** Everything outside the process: the file tree and, in [ext], whatever
    else library calls depend on (network, installed tools, clock). *)
Record Host (X : Type) : Type := mkHost { fs : gmap Path node; ext : X }.
Arguments mkHost {X} fs ext.
Arguments fs {X} h.
Arguments ext {X} h.

(** The process adds the lines it has printed, oldest first. *)
Record World (X : Type) : Type := mkWorld { host : Host X; printed : list string }.
Arguments mkWorld {X} host printed.
Arguments host {X} w.
Arguments printed {X} w.

(** A library call acts on the host; a piece of the script acts on the
    world.  Either may raise, and what was done before the raise stays. *)
Definition Sys (X A : Type) : Type := Host X -> Host X * result A.
Definition M (X A : Type) : Type := World X -> World X * result A.

(** Arguments of a spawned command, and the data handed to [json.dump]. *)
Inductive arg : Type :=
| APath (p : Path)
| AStr (s : string).

#[warnings="-register-all"]
Inductive json : Type :=
| JStr (s : string)
| JList (l : list json)
| JObj (l : list (string * json)).

(** The library calls whose effect the script takes as given. *)
Record Platform (X : Type) : Type := mkPlatform {
  script_file : Path;                                   (* Path(__file__) *)
  iterdir : Path -> Sys X (list Path);                  (* list(p.iterdir()) *)
  mkdir_parents : Path -> Sys X unit;                   (* p.mkdir(parents=True, exist_ok=True) *)
  shutil_copy : Path -> Path -> Sys X unit;             (* shutil.copy(src, tgt) *)
  urlretrieve : string -> Path -> Sys X unit;           (* urllib.request.urlretrieve(url, tgt) *)
  subprocess_call : list arg -> Sys X Z;                (* subprocess.call(argv): the exit status *)
  shutil_rmtree : Path -> Sys X unit;                   (* shutil.rmtree(p) *)
  NamedTemporaryFile : Sys X string;                    (* tempfile.NamedTemporaryFile().name *)
  json_dump : json -> string -> Sys X unit;             (* with open(name, "w") as fd: json.dump(v, fd) *)
  resolve : Path -> Sys X Path;                         (* p.resolve() *)
}.
Arguments script_file {X} p.
Arguments iterdir {X} p.
Arguments mkdir_parents {X} p.
Arguments shutil_copy {X} p.
Arguments urlretrieve {X} p.
Arguments subprocess_call {X} p.
Arguments shutil_rmtree {X} p.
Arguments NamedTemporaryFile {X} p.
Arguments json_dump {X} p.
Arguments resolve {X} p.

Section Monad.
Context {X : Type}.

Definition ret {A} (a : A) : M X A := fun w => (w, Ok a).

Definition raise {A} (e : exn) : M X A := fun w => (w, Raise e).

Definition bind {A B} (m : M X A) (k : A -> M X B) : M X B :=
  fun w =>
    match m w with
    | (w', Ok a) => k a w'
    | (w', Raise e) => (w', Raise e)
    end.

(** A library call made by the script. *)
Definition lift {A} (c : Sys X A) : M X A :=
  fun w =>
    match c (host w) with
    | (h', r) => (mkWorld h' (printed w), r)
    end.

(** A pure step that may raise. *)
Definition liftR {A} (r : result A) : M X A := fun w => (w, r).

(** [print(line)] *)
Definition print (line : string) : M X unit :=
  fun w => (mkWorld (host w) (printed w ++ [line]), Ok tt).

(** [for x in xs: body(x)] *)
Fixpoint for_each {A} (xs : list A) (body : A -> M X unit) : M X unit :=
  match xs with
  | [] => ret tt
  | x :: xs' => bind (body x) (fun _ => for_each xs' body)
  end.

(** [p.unlink(missing_ok=True)]: a missing entry is fine, a directory
    cannot be unlinked, and nothing lives below a regular file. *)
Definition unlink_missing_ok (p : Path) : Sys X unit :=
  fun h =>
    match fs h !! p with
    | Some Dir => (h, Raise (IsADirectoryError (str_of_path p)))
    | Some _ => (mkHost (delete p (fs h)) (ext h), Ok tt)
    | None =>
        match fs h !! parent p with
        | Some (File _) => (h, Raise (NotADirectoryError (str_of_path p)))
        | _ => (h, Ok tt)
        end
    end.

(** [p.symlink_to(target)]: the name must be free and its parent must be
    a directory; the target is stored as given and need not exist. *)
Definition symlink_to (p : Path) (target : string) : Sys X unit :=
  fun h =>
    match fs h !! p with
    | Some _ => (h, Raise (FileExistsError (str_of_path p)))
    | None =>
        match fs h !! parent p with
        | Some Dir => (mkHost (<[p := Symlink target]> (fs h)) (ext h), Ok tt)
        | Some _ => (h, Raise (NotADirectoryError (str_of_path p)))
        | None => (h, Raise (FileNotFoundError (str_of_path p)))
        end
    end.

(** A piece of the script that prints nothing. *)
Definition quiet {A} (m : M X A) : Prop :=
  forall w w' r, m w = (w', r) -> printed w' = printed w.

End Monad.

Notation "x <- m ;; k" := (bind m (fun x => k))
  (at level 100, m at next level, right associativity) : py_scope.
Notation "m ;; k" := (bind m (fun _ => k))
  (at level 100, right associativity) : py_scope.

(* ===================================================================== *)
(** ** The script *)
(* ===================================================================== *)

Definition ATH10K_BOARD_FILE : string := "bdwlan.b58".
Definition ATH10K_BOARD_NAME : string := "bus=snoc,qmi-board-id=ff,qmi-chip-id=30224".

Definition PATH_PLATFORM : string := "msft/surface/pro-x-sq2".
Definition PATH_VENUS : string := "venus-5.2".

Definition PATH_WDSFR : string := "Windows/System32/DriverStore/FileRepository".

Definition URL_AARCH64_FIRMWARE_REPO : string :=
  "https://raw.githubusercontent.com/linux-surface/aarch64-firmware/main/firmware".
Definition URL_LINUX_FIRMWARE_REPO : string :=
  "https://git.kernel.org/pub/scm/linux/kernel/git/firmware/linux-firmware.git/plain".

(** *** class Logger *)

Definition log_pfx : list string := ["==> "; " -> "; "    "].

Record Logger : Type := mkLogger { level : Z; pfx : string }.

(** [Logger(level)] *)
Definition Logger_init (level : Z) : result Logger :=
  let! p := py_index log_pfx level in
  Ok (mkLogger level p).

(** [self.sub()] *)
Definition Logger_sub (self : Logger) : result Logger :=
  Logger_init (level self + 1).

(** *** Firmware._filemap *)

Definition _filemap (files : pyval) : result pyval :=
  match files with
  | PyList xs => let! d := dict_comp xs [] in Ok (PyDict d)
  | PyDict d => Ok (PyDict d)
  | _ => Raise (Exception "invalid file map")
  end.

(** [types.SimpleNamespace] with the two paths [main] stores in it. *)
Record Args : Type := mkArgs { path_wdsfr : Path; path_out : Path }.

(** *** class WindowsDriverFirmware, class DownloadFirmware: the data *)

Record WindowsDriverFirmware : Type := mkWDF {
  wdf_name : string;
  wdf_target_directory : Path;
  wdf_source_directory : string;
  wdf_files : pyval;
}.

(** [WindowsDriverFirmware(name, target_directory, source_directory, files)] *)
Definition WindowsDriverFirmware_init
    (name target_directory source_directory : string) (files : pyval)
    : result WindowsDriverFirmware :=
  let! fm := _filemap files in
  Ok (mkWDF name (Path_of target_directory) source_directory fm).

Record DownloadFirmware : Type := mkDF {
  df_name : string;
  df_target_directory : Path;
  df_source_url : string;
  df_files : pyval;
}.

(** [DownloadFirmware(name, target_directory, source_url, files)] *)
Definition DownloadFirmware_init
    (name target_directory source_url : string) (files : pyval)
    : result DownloadFirmware :=
  let! fm := _filemap files in
  Ok (mkDF name (Path_of target_directory) source_url fm).

(** The loop of [_find_source_directory] over the children that
    [iterdir()] yields: the first one whose name starts with the prefix is
    returned; running off the end of the loop returns [None]. *)
Fixpoint find_source_directory_in (source_directory : string) (children : list Path)
    : option Path :=
  match children with
  | [] => None
  | p :: rest =>
      if String.prefix source_directory (name_of p) then Some p
      else find_source_directory_in source_directory rest
  end.

Section Script.
Context {X : Type} (plat : Platform X).

(** [Logger.info], [Logger.warn], [Logger.error] *)
Definition Logger_info (self : Logger) (msg : string) : M X unit :=
  print (pfx self +:+ msg).
Definition Logger_warn (self : Logger) (msg : string) : M X unit :=
  print (pfx self +:+ "WARNING: " +:+ msg).
Definition Logger_error (self : Logger) (msg : string) : M X unit :=
  print (pfx self +:+ "ERROR: " +:+ msg).

(** *** class Firmware and its subclasses: the interface [gather] uses *)

Class Firmware (T : Type) : Type := {
  name : T -> string;
  get : T -> Logger -> Args -> M X unit;
}.

(** The base class itself: [get] is not implemented. *)
Record FirmwareBase : Type := mkFirmware { fw_name : string; fw_target_directory : Path }.

#[global] Instance Firmware_base : Firmware FirmwareBase := {
  name := fw_name;
  get := fun _ _ _ => raise NotImplementedError;
}.

(** [WindowsDriverFirmware._find_source_directory] *)
Definition _find_source_directory (self : WindowsDriverFirmware) (args : Args)
    : M X (option Path) :=
  children <- lift (iterdir plat (path_wdsfr args)) ;;
  ret (find_source_directory_in (wdf_source_directory self) children).

(** One round of the loop in [WindowsDriverFirmware.get]. *)
Definition WindowsDriverFirmware_copy_one
    (self : WindowsDriverFirmware) (log : Logger) (args : Args)
    (base : option Path) (entry : pykey * pyval) : M X unit :=
  let '(s, t) := entry in
  src <- liftR (truediv base (val_of_key s)) ;;
  tgt <- liftR (truediv (Some (pjoin (path_out args) (wdf_target_directory self))) t) ;;
  lift (mkdir_parents plat (parent tgt)) ;;
  rel <- liftR (truediv (Some (wdf_target_directory self)) t) ;;
  Logger_info log ("copying '" +:+ str_of_path src +:+ "' to '" +:+ str_of_path rel +:+ "'") ;;
  lift (shutil_copy plat src tgt).

(** [WindowsDriverFirmware.get] *)
Definition WindowsDriverFirmware_get
    (self : WindowsDriverFirmware) (log : Logger) (args : Args) : M X unit :=
  base <- _find_source_directory self args ;;
  entries <- liftR (items (wdf_files self)) ;;
  for_each entries (WindowsDriverFirmware_copy_one self log args base).

#[global] Instance Firmware_wdf : Firmware WindowsDriverFirmware := {
  name := wdf_name;
  get := WindowsDriverFirmware_get;
}.

(** One round of the loop in [DownloadFirmware.get]. *)
Definition DownloadFirmware_fetch_one
    (self : DownloadFirmware) (log : Logger) (args : Args)
    (entry : pykey * pyval) : M X unit :=
  let '(s, t) := entry in
  let src := df_source_url self +:+ "/" +:+ str_of_key s in
  tgt <- liftR (truediv (Some (pjoin (path_out args) (df_target_directory self))) t) ;;
  lift (mkdir_parents plat (parent tgt)) ;;
  rel <- liftR (truediv (Some (df_target_directory self)) t) ;;
  Logger_info log ("downloading '" +:+ src +:+ "' to '" +:+ str_of_path rel +:+ "'") ;;
  lift (urlretrieve plat src tgt).

(** [DownloadFirmware.get] *)
Definition DownloadFirmware_get
    (self : DownloadFirmware) (log : Logger) (args : Args) : M X unit :=
  entries <- liftR (items (df_files self)) ;;
  for_each entries (DownloadFirmware_fetch_one self log args).

#[global] Instance Firmware_df : Firmware DownloadFirmware := {
  name := df_name;
  get := DownloadFirmware_get;
}.

(** An entry of the [sources] list: any object with [name] and [get]. *)
Inductive source : Type :=
| Src {T : Type} `{Firmware T} (obj : T).

Definition src_name (s : source) : string :=
  match s with Src obj => name obj end.
Definition src_get (s : source) : Logger -> Args -> M X unit :=
  match s with Src obj => get obj end.

(** *** class Patch *)

Record Patch : Type := mkPatch {
  patch_name : string;
  fn : Logger -> Args -> M X unit;
}.

Definition Patch_apply (self : Patch) (log : Logger) (args : Args) : M X unit :=
  fn self log args.

(** *** The four patches *)

Definition PATH_THIRDPARTY : Path := parent (script_file plat) /: "third-party".

Definition patch_venus_extract (log : Logger) (args : Args) : M X unit :=
  let pil_splitter := PATH_THIRDPARTY /: "qcom-mbn-tools" /: "pil-splitter.py" in
  let mbn_venus := path_out args /: "qcom" /: PATH_PLATFORM /: "qcvss8180.mbn" in
  let dir_venus := path_out args /: "qcom" /: PATH_VENUS in
  lift (mkdir_parents plat dir_venus) ;;
  _ <- lift (subprocess_call plat
               [APath pil_splitter; APath mbn_venus; APath (dir_venus /: "venus")]) ;;
  lift (shutil_copy plat mbn_venus (dir_venus /: "venus.mbn")).

Definition patch_ath10k_board (log : Logger) (args : Args) : M X unit :=
  let ath10k_bdencoder :=
    PATH_THIRDPARTY /: "qca-swiss-army-knife" /: "tools" /: "scripts" /: "ath10k"
                    /: "ath10k-bdencoder" in
  out1 <- lift (resolve plat (path_out args)) ;;
  let path_boards := out1 /: "ath10k" /: "WCN3990" /: "hw1.0" /: "boards" in
  out2 <- lift (resolve plat (path_out args)) ;;
  let path_board_out := out2 /: "ath10k" /: "WCN3990" /: "hw1.0" /: "board-2.bin" in
  let spec :=
    JList [JObj [("data", JStr (str_of_path (path_boards /: ATH10K_BOARD_FILE)));
                 ("names", JList [JStr ATH10K_BOARD_NAME])]] in
  file_name <- lift (NamedTemporaryFile plat) ;;
  lift (json_dump plat spec file_name) ;;
  _ <- lift (subprocess_call plat
               [APath ath10k_bdencoder; AStr "-c"; AStr file_name;
                AStr "-o"; APath path_board_out]) ;;
  lift (shutil_rmtree plat path_boards).

Definition patch_ath10k_firmware (log : Logger) (args : Args) : M X unit :=
  let ath10k_fwencoder :=
    PATH_THIRDPARTY /: "qca-swiss-army-knife" /: "tools" /: "scripts" /: "ath10k"
                    /: "ath10k-fwencoder" in
  let fw5_bin := path_out args /: "ath10k" /: "WCN3990" /: "hw1.0" /: "firmware-5.bin" in
  let args' :=
    [AStr "--modify";
     AStr "--features=wowlan,mgmt-tx-by-ref,non-bmi,single-chan-info-per-channel";
     APath fw5_bin] in
  _ <- lift (subprocess_call plat ([APath ath10k_fwencoder] ++ args')) ;;
  ret tt.

(** The [files] list of [patch_qca_bt_symlinks]. *)
Definition qca_bt_files : list string :=
  ["crbtfw21.tlv"; "crnv21.b3c"; "crnv21.b44"; "crnv21.b45";
   "crnv21.b46"; "crnv21.b47"; "crnv21.b71"; "crnv21.bin"].

(** One round of the loop in [patch_qca_bt_symlinks]. *)
Definition qca_bt_link_one (base_path : Path) (file : string) : M X unit :=
  let link := base_path /: str_replace file "21" "01" in
  lift (unlink_missing_ok link) ;;
  lift (symlink_to link file).

Definition patch_qca_bt_symlinks (log : Logger) (args : Args) : M X unit :=
  let base_path := path_out args /: "qca" in
  for_each qca_bt_files (qca_bt_link_one base_path).

(** *** The module-level lists *)

Definition strs (l : list string) : pyval := PyList (map PyStr l).

Definition mcfg_files : pyval :=
  let sw := "modem_pr/mcfg/configs/mcfg_sw/" in
  let hw := "modem_pr/mcfg/configs/mcfg_hw/" in
  let e (k v : string) : pykey * pyval := (KStr k, PyStr v) in
  PyDict [
    e "MCFG/MCFG.1" (sw +:+ "oem_sw.txt");
    e "MCFG/MCFG.2" (sw +:+ "mbn_sw.txt");
    e "MCFG/MCFG.3" (sw +:+ "mbn_sw.dig");
    e "MCFG/MCFG.4" (sw +:+ "generic/APAC/DCM/Commercial/mcfg_sw.mbn");
    e "MCFG/MCFG.5" (sw +:+ "generic/APAC/SBM/Commercial/mcfg_sw.mbn");
    e "MCFG/MCFG.6" (sw +:+ "generic/common/ROW/Commercial/mcfg_sw.mbn");
    e "MCFG/MCFG.7" (sw +:+ "generic/Microsoft/Cambria/SW/CMCC/Commercial/MSFT_OpenMkt/mcfg_sw.mbn");
    e "MCFG/MCFG.8" (sw +:+ "generic/Microsoft/Cambria/SW/CT/Commercial/MSFT_OpenMkt/mcfg_sw.mbn");
    e "MCFG/MCFG.9" (sw +:+ "generic/Microsoft/Cambria/SW/CU/Commercial/MSFT_OpenMkt/mcfg_sw.mbn");
    e "MCFG/MCFG.10" (sw +:+ "generic/Microsoft/Cambria/SW/GIGSKY/Commercial/mcfg_sw.mbn");
    e "MCFG/MCFG.11" (sw +:+ "generic/Microsoft/Cambria/SW/mte/factory/mcfg_sw.mbn");
    e "MCFG/MCFG.12" (sw +:+ "generic/Microsoft/Cambria/SW/rel/sc8180x.gen.prod/common/mcfg_sw.mbn");
    e "MCFG/MCFG.13" (sw +:+ "generic/NA/ATT/FirstNet/mcfg_sw.mbn");
    e "MCFG/MCFG.14" (sw +:+ "generic/NA/ATT/Non_VoLTE/mcfg_sw.mbn");
    e "MCFG/MCFG.15" (sw +:+ "generic/NA/Verizon/CDMAless/mcfg_sw.mbn");
    e "MCFG/MCFG.16" (hw +:+ "mbn_hw.txt");
    e "MCFG/MCFG.17" (hw +:+ "mbn_hw.dig");
    e "MCFG/MCFG.18" (hw +:+ "generic/common/SC8180X/cmcc_subsidized/SR_DSDS/mcfg_hw.mbn");
    e "MCFG/MCFG.19" (hw +:+ "generic/common/SC8180X/LA/7+7_mode/SR_DSDS/mcfg_hw.mbn");
    e "MCFG/MCFG.20" (hw +:+ "generic/common/SC8180X/LA/DSDS/mcfg_hw.mbn");
    e "MCFG/MCFG.21" (hw +:+ "generic/common/SC8180X/LA/SS/mcfg_hw.mbn");
    e "MCFG/MCFG.22" (hw +:+ "generic/common/SC8180X/WD/7+7_mode/SR_DSDS/mcfg_hw.mbn");
    e "MCFG/MCFG.23" (hw +:+ "generic/common/SC8180X/WD/DSSA/mcfg_hw.mbn");
    e "MCFG/MCFG.24" (hw +:+ "generic/common/SC8180X/WD/SS/mcfg_hw.mbn");
    e "MCFG/MCFG.25" (hw +:+ "generic/common/SC8180X/WP8/7+7_mode/SR_DSDS/mcfg_hw.mbn");
    e "MCFG/MCFG.26" (hw +:+ "generic/common/SC8180X/WP8/SS/mcfg_hw.mbn");
    e "MCFG/MCFG.27" (hw +:+ "generic/Microsoft/Cambria/hw/mte/factory/mcfg_hw.mbn");
    e "MCFG/MCFG.28" (hw +:+ "generic/Microsoft/Cambria/hw/rel/sc8180x.gen.prod/common/mcfg_hw.mbn")
  ].

(** [sources = [...]]: the constructors run when the module is loaded, in
    the order of the list, and the first one to raise ends the load. *)
Definition sources : result (list source) :=
  let platform_dir := "qcom/" +:+ PATH_PLATFORM in
  let! pd_maps := DownloadFirmware_init "pd-maps" platform_dir
      (URL_AARCH64_FIRMWARE_REPO +:+ "/qcom/" +:+ PATH_PLATFORM)
      (strs ["adspr.jsn"; "adspua.jsn"; "cdspr.jsn"; "charger.jsn";
             "modemr.jsn"; "modemuw.jsn"]) in
  let! bluetooth := WindowsDriverFirmware_init "bluetooth" "qca" "qcbtfmuart8180"
      (strs ["crbtfw21.tlv"; "crnv21.b3c"; "crnv21.b44"; "crnv21.b45";
             "crnv21.b46"; "crnv21.b47"; "crnv21.b71"; "crnv21.bin"]) in
  let! gpu_base := DownloadFirmware_init "gpu/base" "qcom"
      (URL_AARCH64_FIRMWARE_REPO +:+ "/qcom")
      (strs ["a680_gmu.bin"; "a680_sqe.fw"]) in
  let! gpu_vendor := WindowsDriverFirmware_init "gpu/vendor" platform_dir "qcdx8180"
      (strs ["qcdxkmsuc8180.mbn"; "qcvss8180.mbn"]) in
  let! wlan_vendor := WindowsDriverFirmware_init "wlan/vendor" platform_dir "qcwlan8180"
      (strs ["wlanmdsp.mbn"]) in
  let! wlan_board := WindowsDriverFirmware_init "wlan/ath10k/board"
      "ath10k/WCN3990/hw1.0/boards" "qcwlan8180"
      (strs ["bdwlan.b5f"; "bdwlan.b36"; "bdwlan.b37"; "bdwlan.b46"; "bdwlan.b47";
             "bdwlan.b48"; "bdwlan.b58"; "bdwlan.b71"; "bdwlan.bin";
             "bdwlanu.b5f"; "bdwlanu.b58"]) in
  let! wlan_fw5 := DownloadFirmware_init "wlan/ath10k/firmware-5" "ath10k/WCN3990/hw1.0"
      (URL_LINUX_FIRMWARE_REPO +:+ "/ath10k/WCN3990/hw1.0")
      (strs ["firmware-5.bin"]) in
  let! mcfg := WindowsDriverFirmware_init "mcfg" platform_dir "surfaceprox_mcfg"
      mcfg_files in
  let! adsp := WindowsDriverFirmware_init "adsp/vendor" platform_dir
      "surfaceprox_subextadsp" (strs ["qcadsp8180.mbn"]) in
  let! cdsp := WindowsDriverFirmware_init "cdsp/vendor" platform_dir
      "surfaceprox_subextcdsp" (strs ["qccdsp8180.mbn"]) in
  let! mpss_vendor := WindowsDriverFirmware_init "mpss/vendor" platform_dir
      "surfaceprox_subextmpss" (strs ["qcmpss8180.mbn"; "qcmpss8180_nm.mbn"]) in
  let! mpss_library := WindowsDriverFirmware_init "mpss/library" platform_dir
      "surfaceprox_subextmpss" (strs ["qdsp6m.qdb"]) in
  Ok [Src pd_maps; Src bluetooth; Src gpu_base; Src gpu_vendor; Src wlan_vendor;
      Src wlan_board; Src wlan_fw5; Src mcfg; Src adsp; Src cdsp;
      Src mpss_vendor; Src mpss_library].

Definition patches : list Patch :=
  [mkPatch "venus" patch_venus_extract;
   mkPatch "ath10k/board-2.bin" patch_ath10k_board;
   mkPatch "ath10k/firmware-5.bin" patch_ath10k_firmware;
   mkPatch "qca/bt" patch_qca_bt_symlinks].

(** *** gather, patch, main *)

Definition gather (log : Logger) (args : Args) (sources : list source) : M X unit :=
  for_each sources (fun src =>
    Logger_info log (src_name src) ;;
    sub_log <- liftR (Logger_sub log) ;;
    src_get src sub_log args).

Definition patch (log : Logger) (args : Args) (patches : list Patch) : M X unit :=
  for_each patches (fun patch =>
    Logger_info log (patch_name patch) ;;
    sub_log <- liftR (Logger_sub log) ;;
    Patch_apply patch sub_log args).

(** What [argparse] hands to [main]. *)
Record CliArgs : Type := mkCliArgs { windows : string; output : string }.

(** [main()], from the effective user id and the parsed command line; the
    module globals [sources] and [patches] it reads are passed in. *)
Definition main (sources : list source) (patches : list Patch)
    (euid : Z) (cli_args : CliArgs) : M X unit :=
  if euid =? 0 then
    print "Please do not run this script as root!" ;;
    raise (SystemExit 1)
  else
    let args := mkArgs (Path_of (windows cli_args) /: PATH_WDSFR)
                       (Path_of (output cli_args)) in
    log <- liftR (Logger_init 0) ;;
    Logger_info log "retrieving base firmware files" ;;
    gather_log <- liftR (Logger_sub log) ;;
    gather gather_log args sources ;;
    Logger_info log "patching firmware files" ;;
    patch_log <- liftR (Logger_sub log) ;;
    patch patch_log args patches ;;
    Logger_info log "done!".

(** The module run as a program: build [sources], then call [main]. *)
Definition script (euid : Z) (cli_args : CliArgs) : M X unit :=
  srcs <- liftR sources ;;
  main srcs patches euid cli_args.

End Script.

Arguments Src {X T _} obj.

(** The names the loop is run over are plain, and their links distinct. *)
Definition plain_names (files : list string) : Prop :=
  Forall (fun file =>
            String.prefix "/" (str_replace file "21" "01") = false /\
            components (str_replace file "21" "01") "" = [str_replace file "21" "01"])
         files /\
  NoDup (map (fun file => str_replace file "21" "01") files).

(** The [args] that [main] builds from the command line. *)
Definition main_args (cli_args : CliArgs) : Args :=
  mkArgs (Path_of (windows cli_args) /: PATH_WDSFR) (Path_of (output cli_args)).

(** A platform that differs from [plat] in one respect: every spawned
    command that returns does so with the exit status [status]. *)
Definition with_exit_status {X} (status : Z) (plat : Platform X) : Platform X := {|
  script_file := script_file plat;
  iterdir := iterdir plat;
  mkdir_parents := mkdir_parents plat;
  shutil_copy := shutil_copy plat;
  urlretrieve := urlretrieve plat;
  subprocess_call := fun argv h =>
    match subprocess_call plat argv h with
    | (h', Ok _) => (h', Ok status)
    | (h', Raise e) => (h', Raise e)
    end;
  shutil_rmtree := shutil_rmtree plat;
  NamedTemporaryFile := NamedTemporaryFile plat;
  json_dump := json_dump plat;
  resolve := resolve plat;
|}.

(** A file map from strings to strings, as the dict it is normalised to,
    and the line each kind of source logs for one of its entries. *)
Definition str_dict (l : list (string * string)) : dict :=
  map (fun e => (KStr (fst e), PyStr (snd e))) l.

Definition copying_line (self : WindowsDriverFirmware) (log : Logger) (base : Path)
    (e : string * string) : string :=
  pfx log +:+ "copying '" +:+ str_of_path (base /: fst e) +:+ "' to '"
          +:+ str_of_path (wdf_target_directory self /: snd e) +:+ "'".

Definition downloading_line (self : DownloadFirmware) (log : Logger)
    (e : string * string) : string :=
  pfx log +:+ "downloading '" +:+ (df_source_url self +:+ "/" +:+ fst e) +:+ "' to '"
          +:+ str_of_path (df_target_directory self /: snd e) +:+ "'".

(** The world once [log.info(line)] has run in [w]. *)
Definition logged {X} (log : Logger) (line : string) (w : World X) : World X :=
  mkWorld (host w) (printed w ++ [pfx log +:+ line]).

(** The two shapes a file map is meant to have: a list of strings, or a
    dict from strings to strings. *)
Definition is_str_list (v : pyval) : Prop := exists xs : list string, v = strs xs.
Definition is_str_dict (v : pyval) : Prop :=
  exists l : list (string * string),
    v = PyDict (map (fun e => (KStr (fst e), PyStr (snd e))) l).

(* ===================================================================== *)
(** ** A simulated host, for running the script on examples *)
(* ===================================================================== *)

(** A small machine on which every library call has a definite outcome:
    spawned tools do nothing and all exit with the status [exit_status],
    the network serves the pairs in [served], and file operations act on
    the file tree in the plainest way.  The general results below hold for
    every [Platform]; this one is used to run concrete cases. *)
Module Sim.

Definition set_fs (m : gmap Path node) (h : Host unit) : Host unit :=
  mkHost m (ext h).

(** The directories on the way to [p], outermost first, and [p] itself. *)
Definition chain (p : Path) : list Path :=
  map (fun n => mkPath (root p) (take n (parts p)))
      (seq 0 (S (length (parts p)))).

Fixpoint mkdir_chain (ps : list Path) (m : gmap Path node)
    : gmap Path node * result unit :=
  match ps with
  | [] => (m, Ok tt)
  | p :: rest =>
      match m !! p with
      | None => mkdir_chain rest (<[p := Dir]> m)
      | Some Dir => mkdir_chain rest m
      | Some _ => (m, Raise (FileExistsError (str_of_path p)))
      end
  end.

Definition write_file (tgt : Path) (data : string) (m : gmap Path node)
    : gmap Path node * result unit :=
  match m !! tgt with
  | Some Dir => (m, Raise (IsADirectoryError (str_of_path tgt)))
  | _ =>
      match m !! parent tgt with
      | Some Dir => (<[tgt := File data]> m, Ok tt)
      | _ => (m, Raise (FileNotFoundError (str_of_path tgt)))
      end
  end.

Definition under (p q : Path) : Prop :=
  root p = root q /\ parts p `prefix_of` parts q.

Definition run_fs {A} (f : gmap Path node -> gmap Path node * result A) : Sys unit A :=
  fun h => let '(m, r) := f (fs h) in (set_fs m h, r).

Definition platform (exit_status : Z) (served : list (string * string)) : Platform unit := {|
  script_file := Path_of "/repo/scripts/getfw.py";
  iterdir := fun p => run_fs (fun m =>
    match m !! p with
    | Some Dir =>
        (m, Ok (filter (fun q => parent q = p /\ q <> p) (map fst (map_to_list m))))
    | Some _ => (m, Raise (NotADirectoryError (str_of_path p)))
    | None => (m, Raise (FileNotFoundError (str_of_path p)))
    end);
  mkdir_parents := fun p => run_fs (mkdir_chain (chain p));
  shutil_copy := fun src tgt => run_fs (fun m =>
    match m !! src with
    | Some (File data) =>
        match m !! tgt with
        | Some Dir => write_file (tgt /: name_of src) data m
        | _ => write_file tgt data m
        end
    | Some Dir => (m, Raise (IsADirectoryError (str_of_path src)))
    | _ => (m, Raise (FileNotFoundError (str_of_path src)))
    end);
  urlretrieve := fun url tgt => run_fs (fun m =>
    match List.find (fun e => bool_decide (fst e = url)) served with
    | Some e => write_file tgt (snd e) m
    | None => (m, Raise (URLError url))
    end);
  subprocess_call := fun argv => run_fs (fun m => (m, Ok exit_status));
  shutil_rmtree := fun p => run_fs (fun m =>
    match m !! p with
    | Some Dir => (filter (fun e => ~ under p (fst e)) m, Ok tt)
    | Some _ => (m, Raise (NotADirectoryError (str_of_path p)))
    | None => (m, Raise (FileNotFoundError (str_of_path p)))
    end);
  NamedTemporaryFile := run_fs (fun m =>
    (<[Path_of "/tmp/tmpgetfw" := File ""]> m, Ok "/tmp/tmpgetfw"));
  json_dump := fun v file_name => run_fs (write_file (Path_of file_name) "json");
  resolve := fun p => run_fs (fun m => (m, Ok p));
|}.

(** A tree with the given directories and the given files, and every
    directory above them. *)
Definition tree (dirs : list Path) (files : list (Path * string)) : gmap Path node :=
  let with_dirs := fold_left (fun m d => fst (mkdir_chain (chain d) m)) dirs ∅ in
  fold_left (fun m e => <[fst e := File (snd e)]>
                          (fst (mkdir_chain (chain (parent (fst e))) m)))
            files with_dirs.

Definition world (m : gmap Path node) : World unit := mkWorld (mkHost m tt) [].

(** A recording stand-in for a source: its [get] prints a line, then
    either raises or leaves a file named after it in the output tree. *)
Record Stub : Type := mkStub { stub_name : string; stub_fails : bool }.

#[global] Instance Firmware_stub : @Firmware unit Stub := {
  name := stub_name;
  get := fun self log args =>
    print ("materialize " +:+ stub_name self) ;;
    if stub_fails self then raise (OSError (stub_name self))
    else lift (run_fs (write_file (path_out args /: stub_name self) "data"));
}.

(** A recording stand-in for a patch. *)
Definition stub_patch (patch_name : string) (fails : bool) : @Patch unit :=
  mkPatch patch_name (fun log args =>
    print ("apply " +:+ patch_name) ;;
    if fails then raise (OSError patch_name) else ret tt).

End Sim.

(** Concrete inputs for the examples below. *)
Module Demo.

Definition repo : Path := Path_of "win" /: PATH_WDSFR.
Definition args : Args := mkArgs repo (Path_of "out").
Definition log1 : Logger := mkLogger 1 " -> ".
Definition log2 : Logger := mkLogger 2 "    ".

(** Tools exit with status 0 and the network serves nothing. *)
Definition plat : Platform unit := Sim.platform 0 [].

(** Every spawned tool fails with exit status 1. *)
Definition plat_tools_fail : Platform unit := Sim.platform 1 [].

(** A repository with the children foo8180, foobar and baz. *)
Definition foo_world : World unit :=
  Sim.world (Sim.tree [repo /: "foo8180"; repo /: "foobar"; repo /: "baz";
                       Path_of "out"] []).

(** A repository whose only child is baz. *)
Definition baz_world : World unit :=
  Sim.world (Sim.tree [repo /: "baz"; Path_of "out"] []).

(** A local source looking for a directory that starts with foo. *)
Definition wdf_foo : WindowsDriverFirmware :=
  mkWDF "foo" (Path_of "tgt") "foo" (PyDict [(KStr "a.bin", PyStr "a.bin")]).

(** What a call returned, when it returned normally. *)
Definition returned {A} (r : result A) (default : A) : A :=
  match r with Ok a => a | Raise _ => default end.

(** An output tree as the gather phase leaves it, before any patch. *)
Definition gathered_world : World unit :=
  Sim.world (Sim.tree
    [Path_of "out/qca"; Path_of "out/ath10k/WCN3990/hw1.0/boards"; Path_of "/tmp"]
    [(Path_of "out/qcom/msft/surface/pro-x-sq2/qcvss8180.mbn", "venus");
     (Path_of "out/ath10k/WCN3990/hw1.0/boards/bdwlan.b58", "board");
     (Path_of "out/ath10k/WCN3990/hw1.0/firmware-5.bin", "fw5");
     (Path_of "out/qca/crbtfw21.tlv", "bt")]).

(** The same tree without the two files that patches 2 and 3 read. *)
Definition incomplete_world : World unit :=
  Sim.world (Sim.tree
    [Path_of "out/qca"; Path_of "out/ath10k/WCN3990/hw1.0/boards"; Path_of "/tmp"]
    [(Path_of "out/qcom/msft/surface/pro-x-sq2/qcvss8180.mbn", "venus");
     (Path_of "out/qca/crbtfw21.tlv", "bt")]).

(** A repository that holds pkg-v1 with a.bin and b.bin beside another
    package, and an empty output directory. *)
Definition pkg_world : World unit :=
  Sim.world (Sim.tree [repo /: "other"; Path_of "out"]
                      [(repo /: "pkg-v1" /: "a.bin", "AAA");
                       (repo /: "pkg-v1" /: "b.bin", "BBB")]).

(** A local source that copies a.bin out of the package. *)
Definition wdf_pkg : WindowsDriverFirmware :=
  mkWDF "local" (Path_of "tgt") "pkg" (PyDict [(KStr "a.bin", PyStr "a.bin")]).

(** A local source that asks for a file the package does not have,
    between the two it has. *)
Definition wdf_pkg_missing : WindowsDriverFirmware :=
  mkWDF "local" (Path_of "tgt") "pkg"
        (PyDict [(KStr "a.bin", PyStr "a.bin"); (KStr "nope.bin", PyStr "nope.bin");
                 (KStr "b.bin", PyStr "b.bin")]).

(** An output tree in which a stale file sits at one of the 01-names. *)
Definition stale_world : World unit :=
  Sim.world (Sim.tree [Path_of "out/qca"]
                      [(Path_of "out/qca/crnv21.bin", "nv");
                       (Path_of "out/qca/crnv01.bin", "stale")]).

(** A download source, and a platform whose network serves its file. *)
Definition df_b : DownloadFirmware :=
  mkDF "remote" (Path_of "tgt") "http://host/fw" (PyDict [(KStr "b.bin", PyStr "sub/b.bin")]).
Definition plat_net : Platform unit := Sim.platform 0 [("http://host/fw/b.bin", "BBB")].

(** An empty output directory. *)
Definition empty_out : World unit := Sim.world (Sim.tree [Path_of "out"] []).

(** Three recording sources; the second one fails. *)
Definition three_stubs : list (@source unit) :=
  [Src (Sim.mkStub "one" false); Src (Sim.mkStub "two" true);
   Src (Sim.mkStub "three" false)].

(** Two recording sources that both succeed. *)
Definition two_stubs : list (@source unit) :=
  [Src (Sim.mkStub "one" false); Src (Sim.mkStub "three" false)].

(** Three recording patches; the second one fails. *)
Definition three_patches : list (@Patch unit) :=
  [Sim.stub_patch "a" false; Sim.stub_patch "b" true; Sim.stub_patch "c" false].

Definition cli : CliArgs := mkCliArgs "win" "out".

End Demo.

(* ===================================================================== *)
(** ** Properties: file-map normalisation *)
(* ===================================================================== *)

Section Dict.

Lemma hash_key_val (v : pyval) (k : pykey) :
  hash_key v = Some k -> v = val_of_key k.
Proof. destruct v; simpl; intros E; inversion E; reflexivity. Qed.

Lemma hash_key_str (s : string) : hash_key (PyStr s) = Some (KStr s).
Proof. reflexivity. Qed.

Lemma dict_get_set_eq (d : dict) (k : pykey) (v : pyval) :
  dict_get (dict_set d k v) k = Some v.
Proof.
  induction d as [|[k' v'] d IH]; simpl.
  - destruct (decide (k = k)); congruence.
  - destruct (decide (k' = k)) as [E|N]; simpl.
    + destruct (decide (k' = k)); congruence.
    + destruct (decide (k' = k)); [congruence | exact IH].
Qed.

Lemma dict_get_set_ne (d : dict) (k k' : pykey) (v : pyval) :
  k <> k' -> dict_get (dict_set d k v) k' = dict_get d k'.
Proof.
  intros N. induction d as [|[k0 v0] d IH]; simpl.
  - destruct (decide (k = k')); congruence.
  - destruct (decide (k0 = k)) as [E|N0]; simpl.
    + subst k0. destruct (decide (k = k')); congruence.
    + destruct (decide (k0 = k')); [reflexivity | exact IH].
Qed.

(** Setting a key leaves the keys as they are when the key is there, and
    adds it at the end when it is not. *)
Lemma dict_keys_set (d : dict) (k : pykey) (v : pyval) :
  dict_keys (dict_set d k v) =
    if decide (k ∈ dict_keys d) then dict_keys d else dict_keys d ++ [k].
Proof.
  unfold dict_keys. induction d as [|[k' v'] d IH]; simpl.
  - destruct (decide (k ∈ [])) as [H|_]; [inversion H | reflexivity].
  - destruct (decide (k' = k)) as [E|N]; simpl.
    + subst k'. destruct (decide (k ∈ k :: map fst d)) as [_|H]; [reflexivity|].
      exfalso. apply H. left.
    + rewrite IH. destruct (decide (k ∈ map fst d)) as [H|H].
      * destruct (decide (k ∈ k' :: map fst d)) as [_|H']; [reflexivity|].
        exfalso. apply H'. right. exact H.
      * destruct (decide (k ∈ k' :: map fst d)) as [H'|_]; [|reflexivity].
        exfalso. inversion H'; subst; [congruence | contradiction].
Qed.

Lemma dict_set_elem (d : dict) (k : pykey) (v : pyval) (k' : pykey) (v' : pyval) :
  (k', v') ∈ dict_set d k v -> (k' = k /\ v' = v) \/ (k', v') ∈ d.
Proof.
  induction d as [|[k0 v0] d IH]; simpl; intros H.
  - apply list_elem_of_singleton in H. inversion H. left. split; reflexivity.
  - destruct (decide (k0 = k)) as [E|N].
    + apply elem_of_cons in H as [H|H].
      * inversion H; subst. left. split; reflexivity.
      * right. right. exact H.
    + apply elem_of_cons in H as [H|H].
      * right. rewrite H. left.
      * destruct (IH H) as [?|?]; [left; assumption | right; right; assumption].
Qed.

(** What the comprehension leaves behind when every entry is hashable:
    the keys gain exactly the keys of the entries and stay distinct, every
    key of an entry is mapped to that entry, and old entries under other
    keys are untouched. *)
Lemma dict_comp_hashable (xs : list pyval) :
  Forall (fun x => is_Some (hash_key x)) xs ->
  forall acc, NoDup (dict_keys acc) ->
  exists d, dict_comp xs acc = Ok d /\
    NoDup (dict_keys d) /\
    (forall k, k ∈ dict_keys d <-> k ∈ dict_keys acc \/ Some k ∈ map hash_key xs) /\
    (forall k, Some k ∈ map hash_key xs -> dict_get d k = Some (val_of_key k)) /\
    (forall k v, (k, v) ∈ d -> (k, v) ∈ acc \/ (Some k ∈ map hash_key xs /\ v = val_of_key k)).
Proof.
  induction 1 as [|x xs [k Hk] Hxs IH]; intros acc Hnd; simpl.
  - exists acc. split; [reflexivity|]. split; [exact Hnd|].
    split; [|split].
    + intros k. split; [auto|]. intros [H|H]; [exact H | inversion H].
    + intros k H. inversion H.
    + intros k v H. left. exact H.
  - rewrite Hk.
    assert (Hnd' : NoDup (dict_keys (dict_set acc k x))).
    { rewrite dict_keys_set. destruct (decide (k ∈ dict_keys acc)) as [Hin|Hin];
        [exact Hnd|]. apply NoDup_app. split; [exact Hnd|]. split.
      - intros y Hy Hy'. apply list_elem_of_singleton in Hy'. subst. contradiction.
      - apply NoDup_singleton. }
    assert (Hkeys : forall k', k' ∈ dict_keys (dict_set acc k x) <->
                               k' ∈ dict_keys acc \/ k' = k).
    { intros k'. rewrite dict_keys_set.
      destruct (decide (k ∈ dict_keys acc)) as [Hin|Hin].
      - split; [auto|]. intros [?|?]; subst; assumption.
      - rewrite elem_of_app, list_elem_of_singleton. reflexivity. }
    destruct (IH _ Hnd') as (d & Hd & Hnd_d & Hdom & Hget & Hent).
    exists d. split; [exact Hd|]. split; [exact Hnd_d|]. split; [|split].
    + intros k'. rewrite Hdom, Hkeys, elem_of_cons. split.
      * intros [[?|?]|?]; [left; assumption | right; left; congruence | right; right; assumption].
      * intros [?|[E|?]]; [left; left; assumption | left; right; congruence | right; assumption].
    + intros k' Hin. apply elem_of_cons in Hin as [E|Hin]; [|apply Hget; exact Hin].
      assert (k' = k) by congruence. subst k'.
      destruct (decide (Some k ∈ map hash_key xs)) as [Hin|Hin]; [apply Hget; exact Hin|].
      clear -Hd Hin Hk Hxs. rewrite (hash_key_val _ _ Hk) in Hd.
      assert (G : dict_get (dict_set acc k (val_of_key k)) k = Some (val_of_key k))
        by apply dict_get_set_eq.
      revert Hd G. generalize (dict_set acc k (val_of_key k)). clear acc.
      induction Hxs as [|y ys [ky Hy] Hys IHys]; simpl; intros a Hd G.
      * inversion Hd; subst. exact G.
      * rewrite Hy in Hd. apply (IHys ltac:(intros H; apply Hin; right; exact H) _ Hd).
        rewrite dict_get_set_ne; [exact G|]. intros ->. apply Hin. rewrite <- Hy. left.
    + intros k' v' Hin. destruct (Hent _ _ Hin) as [Hacc|[Hxs' Hv]].
      * apply dict_set_elem in Hacc as [[-> ->]|Hacc]; [|left; exact Hacc].
        right. split; [rewrite <- Hk; left | apply hash_key_val; exact Hk].
      * right. split; [right; exact Hxs' | exact Hv].
Qed.

Lemma dict_comp_raises (xs : list pyval) (acc : dict) (e : exn) :
  dict_comp xs acc = Raise e -> e = TypeError "unhashable type".
Proof.
  revert acc. induction xs as [|x xs IH]; simpl; intros acc H.
  - discriminate H.
  - destruct (hash_key x); [apply (IH _ H) | inversion H; reflexivity].
Qed.

Lemma strs_hashable (xs : list string) :
  Forall (fun x => is_Some (hash_key x)) (map PyStr xs).
Proof. induction xs; constructor; [eexists; reflexivity | assumption]. Qed.

Lemma strs_keys (xs : list string) (k : pykey) :
  Some k ∈ map hash_key (map PyStr xs) <-> exists x, x ∈ xs /\ k = KStr x.
Proof.
  induction xs as [|y ys IH]; simpl.
  - split; [intros H; inversion H | intros (x & H & _); inversion H].
  - rewrite elem_of_cons, IH. split.
    + intros [E|(x & Hx & ->)].
      * inversion E. exists y. split; [left | reflexivity].
      * exists x. split; [right; exact Hx | reflexivity].
    + intros (x & Hx & ->). apply elem_of_cons in Hx as [->|Hx].
      * left. reflexivity.
      * right. exists x. split; [exact Hx | reflexivity].
Qed.

End Dict.

(** C3. A file map given as a list of strings is normalised to the
    identity mapping over that list: normalisation succeeds, every entry of
    the list is a key mapped to itself, and the mapping holds nothing else.
    In particular ["a", "b"] becomes {"a": "a", "b": "b"}. *)
Theorem filemap_list_identity :
  (forall xs : list string,
     exists d, _filemap (strs xs) = Ok (PyDict d) /\
       (forall x, x ∈ xs -> dict_get d (KStr x) = Some (PyStr x)) /\
       (forall k v, (k, v) ∈ d -> exists x, x ∈ xs /\ k = KStr x /\ v = PyStr x)) /\
  _filemap (strs ["a"; "b"]) = Ok (PyDict [(KStr "a", PyStr "a"); (KStr "b", PyStr "b")]).
Proof.
  split; [|reflexivity].
  intros xs.
  destruct (dict_comp_hashable _ (strs_hashable xs) [] (NoDup_nil_2))
    as (d & Hd & _ & _ & Hget & Hent).
  exists d. unfold _filemap, strs. rewrite Hd. simpl. split; [reflexivity|]. split.
  - intros x Hx. apply (Hget (KStr x)). apply strs_keys. exists x. auto.
  - intros k v Hin. destruct (Hent _ _ Hin) as [H|[H ->]]; [inversion H|].
    apply strs_keys in H as (x & Hx & ->). exists x. auto.
Qed.

(** C4 as stated fails: the list [1, 2] is neither a list of strings nor a
    dict from strings to strings, and normalisation returns a mapping. *)
Lemma filemap_int_list_accepted :
  ~ is_str_list (PyList [PyInt 1; PyInt 2]) /\
  ~ is_str_dict (PyList [PyInt 1; PyInt 2]) /\
  _filemap (PyList [PyInt 1; PyInt 2]) = Ok (PyDict [(KInt 1, PyInt 1); (KInt 2, PyInt 2)]).
Proof.
  split; [|split; [|reflexivity]].
  - intros [xs H]. unfold strs in H. destruct xs as [|x xs]; simpl in H; discriminate H.
  - intros [l H]. discriminate H.
Qed.

(** C4, amended. Normalisation looks at the type of the file map only: it
    raises Exception("invalid file map") exactly when the input is neither
    a list nor a dict, so such an input never yields a mapping, and both
    source constructors raise that exception with it. *)
Theorem filemap_rejects_other_types (v : pyval) :
  (_filemap v = Raise (Exception "invalid file map") <->
     (forall xs, v <> PyList xs) /\ (forall d, v <> PyDict d)) /\
  ((forall xs, v <> PyList xs) -> (forall d, v <> PyDict d) ->
     (forall r, _filemap v <> Ok r) /\
     (forall n t s, WindowsDriverFirmware_init n t s v = Raise (Exception "invalid file map")) /\
     (forall n t u, DownloadFirmware_init n t u v = Raise (Exception "invalid file map"))).
Proof.
  assert (R : (forall xs, v <> PyList xs) -> (forall d, v <> PyDict d) ->
              _filemap v = Raise (Exception "invalid file map")).
  { intros Hl Hd. destruct v; try reflexivity.
    - contradiction (Hl xs). reflexivity.
    - contradiction (Hd d). reflexivity. }
  split.
  - split.
    + intros H. split; intros l ->; simpl in H.
      * destruct (dict_comp l []) as [d|e] eqn:E; simpl in H; [discriminate H|].
        apply dict_comp_raises in E. subst e. discriminate H.
      * discriminate H.
    + intros [Hl Hd]. apply R; assumption.
  - intros Hl Hd. specialize (R Hl Hd). split; [|split].
    + intros r. rewrite R. discriminate.
    + intros n t s. unfold WindowsDriverFirmware_init. rewrite R. reflexivity.
    + intros n t u. unfold DownloadFirmware_init. rewrite R. reflexivity.
Qed.

Lemma filemap_rejects_other_types_witness :
  _filemap (PyStr "a.bin") = Raise (Exception "invalid file map") /\
  (forall r, _filemap (PyStr "a.bin") <> Ok r).
Proof.
  assert (Hl : forall xs, PyStr "a.bin" <> PyList xs) by (intros xs; discriminate).
  assert (Hd : forall d, PyStr "a.bin" <> PyDict d) by (intros d; discriminate).
  split.
  - apply (proj1 (filemap_rejects_other_types (PyStr "a.bin"))). split; assumption.
  - apply (proj2 (filemap_rejects_other_types (PyStr "a.bin")) Hl Hd).
Defined.

(** C9. A list of strings with duplicate entries is normalised without
    error; the keys of the mapping are distinct and are exactly the entries
    of the list, so the mapping has fewer entries than the list. *)
Theorem filemap_list_duplicates (xs : list string) :
  ~ NoDup xs ->
  exists d, _filemap (strs xs) = Ok (PyDict d) /\
    NoDup (dict_keys d) /\
    (forall k, k ∈ dict_keys d <-> exists x, x ∈ xs /\ k = KStr x) /\
    (length d < length xs)%nat.
Proof.
  intros Hdup.
  destruct (dict_comp_hashable _ (strs_hashable xs) [] (NoDup_nil_2))
    as (d & Hd & Hnd & Hdom & _ & _).
  exists d. unfold _filemap, strs. rewrite Hd. simpl.
  assert (Hkeys : forall k, k ∈ dict_keys d <-> exists x, x ∈ xs /\ k = KStr x).
  { intros k. rewrite Hdom, strs_keys. split; [|auto].
    intros [H|H]; [inversion H | exact H]. }
  split; [reflexivity|]. split; [exact Hnd|]. split; [exact Hkeys|].
  assert (Hsub : dict_keys d ⊆+ map KStr xs).
  { apply NoDup_submseteq; [exact Hnd|]. intros k Hk.
    apply Hkeys in Hk as (x & Hx & ->). apply (list_elem_of_fmap_2 KStr). exact Hx. }
  destruct (le_lt_dec (length xs) (length d)) as [Hle|Hlt]; [|exact Hlt].
  exfalso. apply Hdup.
  assert (Hperm : dict_keys d ≡ₚ map KStr xs).
  { apply submseteq_length_Permutation; [exact Hsub|].
    unfold dict_keys. rewrite !length_map. exact Hle. }
  rewrite Hperm in Hnd.
  apply (NoDup_fmap_1 KStr). exact Hnd.
Qed.

Lemma filemap_list_duplicates_witness :
  exists d, _filemap (strs ["a"; "b"; "a"]) = Ok (PyDict d) /\
    NoDup (dict_keys d) /\
    (forall k, k ∈ dict_keys d <-> exists x, x ∈ ["a"; "b"; "a"] /\ k = KStr x) /\
    (length d < 3)%nat.
Proof.
  apply (filemap_list_duplicates ["a"; "b"; "a"]).
  intros H. apply NoDup_cons in H as [H _]. apply H. right. left.
Defined.

(* ===================================================================== *)
(** ** Properties: the logger *)
(* ===================================================================== *)

(** C10. Loggers nest three deep and no deeper: [sub()] of a logger at
    level 0 or 1 is the logger of the next level with the next prefix of
    the table, [sub()] of a logger at level 2 raises IndexError, and no
    logger that [Logger(...)] or [sub()] returns has a level above 2. *)
Theorem logger_nesting_bounded (lg : Logger) :
  (level lg = 0 -> Logger_sub lg = Ok (mkLogger 1 " -> ")) /\
  (level lg = 1 -> Logger_sub lg = Ok (mkLogger 2 "    ")) /\
  (level lg = 0 \/ level lg = 1 ->
     exists p, nth_error log_pfx (Z.to_nat (level lg + 1)) = Some p /\
               Logger_sub lg = Ok (mkLogger (level lg + 1) p)) /\
  (level lg = 2 -> Logger_sub lg = Raise (IndexError "list index out of range")) /\
  (forall lg', Logger_sub lg = Ok lg' -> level lg' = level lg + 1 /\ level lg' <= 2) /\
  (forall l lg', Logger_init l = Ok lg' -> level lg' = l /\ level lg' <= 2).
Proof.
  assert (Hinit : forall l lg', Logger_init l = Ok lg' -> level lg' = l /\ level lg' <= 2).
  { intros l lg'. unfold Logger_init, py_index. simpl length.
    destruct (l <? 0) eqn:Hneg.
    - destruct ((0 <=? l + Z.of_nat 3) && (l + Z.of_nat 3 <? Z.of_nat 3)) eqn:Hr;
        [|discriminate].
      destruct (nth_error log_pfx (Z.to_nat (l + Z.of_nat 3))); [|discriminate].
      apply andb_prop in Hr as [_ Hr]. apply Z.ltb_lt in Hr.
      simpl. intros E. inversion E; subst; simpl. lia.
    - destruct ((0 <=? l) && (l <? Z.of_nat 3)) eqn:Hr; [|discriminate].
      destruct (nth_error log_pfx (Z.to_nat l)); [|discriminate].
      apply andb_prop in Hr as [_ Hr]. apply Z.ltb_lt in Hr.
      simpl. intros E. inversion E; subst; simpl. lia. }
  unfold Logger_sub. repeat split.
  - intros ->. reflexivity.
  - intros ->. reflexivity.
  - intros [-> | ->]; eexists; split; reflexivity.
  - intros ->. reflexivity.
  - apply (Hinit _ _ H).
  - apply (Hinit _ _ H).
  - apply (Hinit _ _ H).
  - apply (Hinit _ _ H).
Qed.

Lemma logger_nesting_bounded_witness :
  Logger_sub (mkLogger 0 "==> ") = Ok (mkLogger 1 " -> ") /\
  Logger_sub (mkLogger 1 " -> ") = Ok (mkLogger 2 "    ") /\
  Logger_sub (mkLogger 2 "    ") = Raise (IndexError "list index out of range").
Proof.
  split; [|split].
  - apply (proj1 (logger_nesting_bounded (mkLogger 0 "==> "))). reflexivity.
  - apply (proj1 (proj2 (logger_nesting_bounded (mkLogger 1 " -> ")))). reflexivity.
  - apply (proj1 (proj2 (proj2 (proj2 (logger_nesting_bounded (mkLogger 2 "    ")))))).
    reflexivity.
Defined.

(* ===================================================================== *)
(** ** Properties: sequencing and loops *)
(* ===================================================================== *)

Section Loops.
Context {X : Type}.

Lemma bind_ok {A B} (m : M X A) (k : A -> M X B) (w w' : World X) (a : A) :
  m w = (w', Ok a) -> bind m k w = k a w'.
Proof. intros H. unfold bind. rewrite H. reflexivity. Qed.

Lemma bind_raise {A B} (m : M X A) (k : A -> M X B) (w w' : World X) (e : exn) :
  m w = (w', Raise e) -> bind m k w = (w', Raise e).
Proof. intros H. unfold bind. rewrite H. reflexivity. Qed.

Lemma lift_eq {A} (c : Sys X A) (w : World X) (h' : Host X) (r : result A) :
  c (host w) = (h', r) -> lift c w = (mkWorld h' (printed w), r).
Proof. intros H. unfold lift. rewrite H. reflexivity. Qed.

(** A run is determined by its outcome and the world it leaves. *)
Lemma run_eq {A} (m : M X A) (w : World X) (r : result A) :
  snd (m w) = r -> m w = (fst (m w), r).
Proof. destruct (m w). simpl. intros ->. reflexivity. Qed.

Lemma call_eq {A} (c : Sys X A) (h : Host X) (r : result A) :
  snd (c h) = r -> c h = (fst (c h), r).
Proof. destruct (c h). simpl. intros ->. reflexivity. Qed.

(** A loop over [xs ++ ys] is the loop over [xs] followed by the loop
    over [ys]. *)
Lemma for_each_app {A} (xs ys : list A) (body : A -> M X unit) (w : World X) :
  for_each (xs ++ ys) body w = bind (for_each xs body) (fun _ => for_each ys body) w.
Proof.
  revert w. induction xs as [|x xs IH]; intros w; simpl.
  - reflexivity.
  - unfold bind. destruct (body x w) as [w' [[]|e]]; [|reflexivity].
    rewrite IH. reflexivity.
Qed.

(** A round that raises ends the loop there, whatever would follow. *)
Lemma for_each_abort {A} (before : list A) (x : A) (after : list A)
    (body : A -> M X unit) (w w1 w2 : World X) (e : exn) :
  for_each before body w = (w1, Ok tt) ->
  body x w1 = (w2, Raise e) ->
  for_each (before ++ x :: after) body w = (w2, Raise e).
Proof.
  intros Hb Hx. rewrite for_each_app. rewrite (bind_ok _ _ _ _ _ Hb).
  simpl. apply bind_raise. exact Hx.
Qed.

Lemma quiet_lift {A} (c : Sys X A) : quiet (lift c).
Proof.
  intros w w' r. unfold lift. destruct (c (host w)) as [h' r'].
  intros E. inversion E. reflexivity.
Qed.

Lemma quiet_ret {A} (a : A) : quiet (ret (X:=X) a).
Proof. intros w w' r E. inversion E. reflexivity. Qed.

Lemma quiet_bind {A B} (m : M X A) (k : A -> M X B) :
  quiet m -> (forall a, quiet (k a)) -> quiet (bind m k).
Proof.
  intros Hm Hk w w' r. unfold bind. destruct (m w) as [w1 [a|e]] eqn:E.
  - intros E'. rewrite (Hk a _ _ _ E'). apply (Hm _ _ _ E).
  - intros E'. inversion E'; subst. apply (Hm _ _ _ E).
Qed.

Lemma quiet_for_each {A} (xs : list A) (body : A -> M X unit) :
  (forall x, quiet (body x)) -> quiet (for_each xs body).
Proof.
  intros H. induction xs as [|x xs IH]; simpl.
  - apply quiet_ret.
  - apply quiet_bind; [apply H | intros _; exact IH].
Qed.

End Loops.

(* ===================================================================== *)
(** ** Properties: finding the driver directory *)
(* ===================================================================== *)

(** The loop returns the first child whose name starts with the prefix,
    and [None] when no child does. *)
Lemma find_source_directory_in_spec (prefix : string) (children : list Path) :
  match find_source_directory_in prefix children with
  | Some p =>
      exists before after, children = before ++ p :: after /\
        String.prefix prefix (name_of p) = true /\
        (forall q, q ∈ before -> String.prefix prefix (name_of q) = false)
  | None => forall q, q ∈ children -> String.prefix prefix (name_of q) = false
  end.
Proof.
  induction children as [|p rest IH]; simpl.
  - intros q H. inversion H.
  - destruct (String.prefix prefix (name_of p)) eqn:E.
    + exists [], rest. split; [reflexivity|]. split; [exact E|].
      intros q H. inversion H.
    + destruct (find_source_directory_in prefix rest) as [r|].
      * destruct IH as (before & after & -> & Hr & Hb).
        exists (p :: before), after. split; [reflexivity|]. split; [exact Hr|].
        intros q H. apply elem_of_cons in H as [->|H]; [exact E | apply Hb; exact H].
      * intros q H. apply elem_of_cons in H as [->|H]; [exact E | apply IH; exact H].
Qed.

Lemma find_source_directory_in_none (prefix : string) (children : list Path) :
  (forall q, q ∈ children -> String.prefix prefix (name_of q) = false) ->
  find_source_directory_in prefix children = None.
Proof.
  induction children as [|p rest IH]; simpl; intros H; [reflexivity|].
  rewrite (H p) by left. apply IH. intros q Hq. apply H. right. exact Hq.
Qed.

Lemma find_source_directory_eq {X} (plat : Platform X)
    (self : WindowsDriverFirmware) (args : Args) (w : World X)
    (h' : Host X) (children : list Path) :
  iterdir plat (path_wdsfr args) (host w) = (h', Ok children) ->
  _find_source_directory plat self args w =
    (mkWorld h' (printed w),
     Ok (find_source_directory_in (wdf_source_directory self) children)).
Proof.
  intros H. unfold _find_source_directory.
  rewrite (bind_ok _ _ _ _ _ (lift_eq _ _ _ _ H)). reflexivity.
Qed.

(** C5. Whatever the listing of the repository root and whatever the
    prefix, the lookup returns the first child, in listing order, whose
    name starts with the prefix: every child listed before it fails the
    test, and a child whose name does not start with the prefix is never
    returned. *)
Theorem find_source_directory_first_match {X} (plat : Platform X)
    (self : WindowsDriverFirmware) (args : Args) (w : World X)
    (h' : Host X) (children : list Path) :
  iterdir plat (path_wdsfr args) (host w) = (h', Ok children) ->
  exists found,
    _find_source_directory plat self args w = (mkWorld h' (printed w), Ok found) /\
    match found with
    | Some p =>
        exists before after, children = before ++ p :: after /\
          String.prefix (wdf_source_directory self) (name_of p) = true /\
          (forall q, q ∈ before ->
             String.prefix (wdf_source_directory self) (name_of q) = false)
    | None =>
        forall q, q ∈ children ->
          String.prefix (wdf_source_directory self) (name_of q) = false
    end.
Proof.
  intros H. eexists. split; [apply find_source_directory_eq; exact H|].
  apply find_source_directory_in_spec.
Qed.

(** Siblings foo8180, foobar and baz, listed in any order: prefix foo
    yields foo8180 or foobar, whichever comes first, and never baz. *)
Example find_source_directory_foo (children : list Path) :
  children ≡ₚ [Path_of "repo/foo8180"; Path_of "repo/foobar"; Path_of "repo/baz"] ->
  find_source_directory_in "foo" children = Some (Path_of "repo/foo8180") \/
  find_source_directory_in "foo" children = Some (Path_of "repo/foobar").
Proof.
  intros Hp.
  pose proof (find_source_directory_in_spec "foo" children) as Hs.
  destruct (find_source_directory_in "foo" children) as [p|].
  - destruct Hs as (before & after & -> & Hpre & _).
    assert (Hin : p ∈ [Path_of "repo/foo8180"; Path_of "repo/foobar"; Path_of "repo/baz"]).
    { rewrite <- Hp. apply elem_of_app. right. left. }
    repeat (apply elem_of_cons in Hin as [->|Hin]); auto.
    + discriminate Hpre.
    + inversion Hin.
  - exfalso. assert (Hin : Path_of "repo/foobar" ∈ children).
    { rewrite Hp. right. left. }
    specialize (Hs _ Hin). discriminate Hs.
Qed.

Lemma find_source_directory_first_match_witness :
  let children := [Demo.repo /: "baz"; Demo.repo /: "foobar"; Demo.repo /: "foo8180"] in
  exists found,
    _find_source_directory Demo.plat Demo.wdf_foo Demo.args Demo.foo_world =
      (mkWorld (fst (iterdir Demo.plat Demo.repo (host Demo.foo_world)))
               (printed Demo.foo_world), Ok found) /\
    match found with
    | Some p =>
        exists before after, children = before ++ p :: after /\
          String.prefix "foo" (name_of p) = true /\
          (forall q, q ∈ before -> String.prefix "foo" (name_of q) = false)
    | None => forall q, q ∈ children -> String.prefix "foo" (name_of q) = false
    end.
Proof.
  intros children.
  apply (find_source_directory_first_match Demo.plat Demo.wdf_foo Demo.args
           Demo.foo_world (fst (iterdir Demo.plat Demo.repo (host Demo.foo_world)))
           children).
  apply (call_eq (iterdir Demo.plat Demo.repo)). vm_compute. reflexivity.
Defined.

(** C1 as stated fails: with baz as the only child and the prefix foo,
    the lookup raises nothing and returns [None]; [get] goes on into its
    loop with that and stops on a TypeError at the first path join. *)
Lemma find_source_directory_no_match_returns_none :
  snd (iterdir Demo.plat Demo.repo (host Demo.baz_world)) = Ok [Demo.repo /: "baz"] /\
  String.prefix "foo" "baz" = false /\
  snd (_find_source_directory Demo.plat Demo.wdf_foo Demo.args Demo.baz_world) = Ok None /\
  snd (WindowsDriverFirmware_get Demo.plat Demo.wdf_foo Demo.log2 Demo.args Demo.baz_world)
    = Raise (TypeError "unsupported operand type(s) for /").
Proof. repeat split; vm_compute; reflexivity. Qed.

(** C1, amended. When no child of the repository root has a name that
    starts with the prefix, the lookup does not fail: it returns [None].
    [get] then runs its loop with that absent base: with a non-empty file
    map the first path join raises a TypeError before any directory is
    created or any file copied (the world is the one the listing left),
    and with an empty file map [get] returns normally. *)
Theorem find_source_directory_no_match {X} (plat : Platform X)
    (self : WindowsDriverFirmware) (log : Logger) (args : Args) (w : World X)
    (h' : Host X) (children : list Path) :
  iterdir plat (path_wdsfr args) (host w) = (h', Ok children) ->
  (forall q, q ∈ children ->
     String.prefix (wdf_source_directory self) (name_of q) = false) ->
  _find_source_directory plat self args w = (mkWorld h' (printed w), Ok None) /\
  (forall entry rest, wdf_files self = PyDict (entry :: rest) ->
     WindowsDriverFirmware_get plat self log args w
       = (mkWorld h' (printed w), Raise (TypeError "unsupported operand type(s) for /"))) /\
  (wdf_files self = PyDict [] ->
     WindowsDriverFirmware_get plat self log args w = (mkWorld h' (printed w), Ok tt)).
Proof.
  intros Hls Hno.
  assert (Hfind : _find_source_directory plat self args w = (mkWorld h' (printed w), Ok None)).
  { rewrite (find_source_directory_eq _ _ _ _ _ _ Hls).
    rewrite (find_source_directory_in_none _ _ Hno). reflexivity. }
  split; [exact Hfind|]. split.
  - intros [s t] rest Hf. unfold WindowsDriverFirmware_get.
    rewrite (bind_ok _ _ _ _ _ Hfind). rewrite Hf. reflexivity.
  - intros Hf. unfold WindowsDriverFirmware_get.
    rewrite (bind_ok _ _ _ _ _ Hfind). rewrite Hf. reflexivity.
Qed.

Lemma find_source_directory_no_match_witness :
  let h' := fst (iterdir Demo.plat Demo.repo (host Demo.baz_world)) in
  _find_source_directory Demo.plat Demo.wdf_foo Demo.args Demo.baz_world
    = (mkWorld h' (printed Demo.baz_world), Ok None) /\
  WindowsDriverFirmware_get Demo.plat Demo.wdf_foo Demo.log2 Demo.args Demo.baz_world
    = (mkWorld h' (printed Demo.baz_world),
       Raise (TypeError "unsupported operand type(s) for /")).
Proof.
  intros h'.
  assert (Hls : iterdir Demo.plat (path_wdsfr Demo.args) (host Demo.baz_world)
                = (h', Ok [Demo.repo /: "baz"])).
  { apply (call_eq (iterdir Demo.plat Demo.repo)). vm_compute. reflexivity. }
  assert (Hno : forall q, q ∈ [Demo.repo /: "baz"] ->
                  String.prefix (wdf_source_directory Demo.wdf_foo) (name_of q) = false).
  { intros q Hq. apply list_elem_of_singleton in Hq. subst q. vm_compute. reflexivity. }
  destruct (find_source_directory_no_match Demo.plat Demo.wdf_foo Demo.log2 Demo.args
              Demo.baz_world _ _ Hls Hno) as (H1 & H2 & _).
  split; [exact H1|].
  exact (H2 _ _ eq_refl).
Defined.

(* ===================================================================== *)
(** ** Properties: the gather phase *)
(* ===================================================================== *)

(** One round of [gather], once the sub-logger is known. *)
Lemma gather_round {X} (log sub_log : Logger) (args : Args) (src : @source X)
    (w : World X) :
  Logger_sub log = Ok sub_log ->
  gather log args [src] w =
    bind (src_get src sub_log args) (fun _ => ret tt) (logged log (src_name src) w).
Proof.
  intros Hsub. unfold gather. simpl. unfold bind at 1. unfold Logger_info, print.
  unfold bind at 1. unfold liftR. rewrite Hsub. reflexivity.
Qed.

(** C6. The gather phase takes the sources in the order of the list, one
    after the other, and stops at the first failure: when the sources
    before number k have been gathered and the materialization of source
    k raises, [gather] raises that exception in the world the failing
    source left, whatever sources follow it in the list; none of them is
    entered and nothing done so far is undone. *)
Theorem gather_fail_fast {X} (log sub_log : Logger) (args : Args)
    (before : list (@source X)) (failing : @source X) (after : list (@source X))
    (w w1 w2 : World X) (e : exn) :
  Logger_sub log = Ok sub_log ->
  gather log args before w = (w1, Ok tt) ->
  src_get failing sub_log args (logged log (src_name failing) w1) = (w2, Raise e) ->
  gather log args (before ++ failing :: after) w = (w2, Raise e) /\
  (forall (xs ys : list (@source X)) (w0 : World X),
     gather log args (xs ++ ys) w0
       = bind (gather log args xs) (fun _ => gather log args ys) w0).
Proof.
  intros Hsub Hbefore Hfail. split.
  - unfold gather in *. apply (for_each_abort _ _ _ _ _ _ _ _ Hbefore).
    unfold bind at 1. unfold Logger_info, print.
    unfold bind at 1. unfold liftR. rewrite Hsub.
    exact Hfail.
  - intros xs ys w0. unfold gather. apply for_each_app.
Qed.

Lemma gather_fail_fast_witness :
  let one := Src (Sim.mkStub "one" false) in
  let two := Src (Sim.mkStub "two" true) in
  let three := Src (Sim.mkStub "three" false) in
  let w1 := fst (gather Demo.log1 Demo.args [one] Demo.empty_out) in
  let w2 := fst (src_get two Demo.log2 Demo.args (logged Demo.log1 "two" w1)) in
  gather Demo.log1 Demo.args ([one] ++ two :: [three]) Demo.empty_out
    = (w2, Raise (OSError "two")).
Proof.
  intros one two three w1 w2.
  refine (proj1 (gather_fail_fast Demo.log1 Demo.log2 Demo.args [one] two [three]
                   Demo.empty_out w1 w2 (OSError "two") _ _ _)).
  - reflexivity.
  - apply run_eq. vm_compute. reflexivity.
  - apply run_eq. vm_compute. reflexivity.
Defined.

(** The recording sources at work: the first leaves its file, the second
    is entered and fails, the third is neither logged nor entered, and the
    file of the first is still there. *)
Example gather_three_stubs :
  let r := gather Demo.log1 Demo.args Demo.three_stubs Demo.empty_out in
  snd r = Raise (OSError "two") /\
  printed (fst r) = [" -> one"; "materialize one"; " -> two"; "materialize two"] /\
  fs (host (fst r)) !! Path_of "out/one" = Some (File "data") /\
  fs (host (fst r)) !! Path_of "out/two" = None /\
  fs (host (fst r)) !! Path_of "out/three" = None.
Proof. vm_compute. repeat split; reflexivity. Qed.

(* ===================================================================== *)
(** ** Properties: the symlink patch *)
(* ===================================================================== *)

Section Symlinks.
Context {X : Type}.

(** A single plain name appended to a path. *)
Lemma pdiv_plain (p : Path) (s : string) :
  String.prefix "/" s = false -> components s "" = [s] ->
  p /: s = mkPath (root p) (parts p ++ [s]).
Proof. intros H1 H2. unfold pdiv. rewrite H1, H2. reflexivity. Qed.

Lemma parent_plain (r : bool) (ps : list string) (s : string) :
  parent (mkPath r (ps ++ [s])) = mkPath r ps.
Proof. unfold parent. simpl. rewrite removelast_last. reflexivity. Qed.

Lemma path_eta (p : Path) : mkPath (root p) (parts p) = p.
Proof. destruct p. reflexivity. Qed.

Lemma plain_ne_base (r : bool) (ps : list string) (s : string) :
  mkPath r (ps ++ [s]) <> mkPath r ps.
Proof.
  intros E. inversion E as [E']. apply (f_equal (@length string)) in E'.
  rewrite length_app in E'. simpl in E'. lia.
Qed.

(** One round of the loop, when it goes through: the link is there
    afterwards, nothing else has changed, and the directory of the link
    was a directory to begin with. *)
Lemma link_one_ok (base : Path) (file : string) (w w' : World X) :
  let link := base /: str_replace file "21" "01" in
  parent link <> link ->
  qca_bt_link_one base file w = (w', Ok tt) ->
  w' = mkWorld (mkHost (<[link := Symlink file]> (fs (host w))) (ext (host w)))
               (printed w) /\
  fs (host w) !! parent link = Some Dir.
Proof.
  intros link Hne. unfold qca_bt_link_one. fold link.
  unfold bind, lift, unlink_missing_ok, symlink_to.
  destruct (fs (host w) !! link) as [[data| |target]|] eqn:E; simpl.
  - rewrite lookup_delete_eq, (lookup_delete_ne _ _ _ (not_eq_sym Hne)).
    destruct (fs (host w) !! parent link) as [[| |]|]; simpl; intros H; inversion H.
    rewrite insert_delete_eq. split; reflexivity.
  - intros H. inversion H.
  - rewrite lookup_delete_eq, (lookup_delete_ne _ _ _ (not_eq_sym Hne)).
    destruct (fs (host w) !! parent link) as [[| |]|]; simpl; intros H; inversion H.
    rewrite insert_delete_eq. split; reflexivity.
  - destruct (fs (host w) !! parent link) as [[| |]|] eqn:Ep; simpl;
      rewrite ?E, ?Ep; simpl; intros H; inversion H; split; reflexivity.
Qed.

(** One round of the loop on a tree that already has the link: it goes
    through and leaves the world as it was. *)
Lemma link_one_again (base : Path) (file : string) (w : World X) :
  let link := base /: str_replace file "21" "01" in
  parent link <> link ->
  fs (host w) !! link = Some (Symlink file) ->
  fs (host w) !! parent link = Some Dir ->
  qca_bt_link_one base file w = (w, Ok tt).
Proof.
  intros link Hne Hlink Hdir. unfold qca_bt_link_one. fold link.
  unfold bind, lift, unlink_missing_ok, symlink_to.
  rewrite Hlink. simpl.
  rewrite lookup_delete_eq, (lookup_delete_ne _ _ _ (not_eq_sym Hne)), Hdir.
  rewrite insert_delete_eq, (insert_id _ _ _ Hlink).
  destruct w as [[m x] out]. reflexivity.
Qed.

Lemma plain_names_link (base : Path) (files : list string) (file : string) :
  plain_names files -> file ∈ files ->
  base /: str_replace file "21" "01"
    = mkPath (root base) (parts base ++ [str_replace file "21" "01"]).
Proof.
  intros [Hall _] Hin. rewrite Forall_forall in Hall.
  destruct (Hall _ Hin) as [H1 H2]. apply pdiv_plain; assumption.
Qed.

Lemma plain_names_cons (file : string) (files : list string) :
  plain_names (file :: files) ->
  plain_names files /\
  (forall other, other ∈ files ->
     str_replace other "21" "01" <> str_replace file "21" "01").
Proof.
  intros [Hall Hnd]. apply Forall_cons in Hall as [_ Hall].
  simpl in Hnd. apply NoDup_cons in Hnd as [Hnot Hnd].
  split; [split; assumption|].
  intros other Hin E. apply Hnot. rewrite <- E.
  apply (list_elem_of_fmap_2 (fun f => str_replace f "21" "01")). exact Hin.
Qed.

(** The first run, when it goes through: every link is in place, the
    directory of the links is a directory, and the host is otherwise as
    the run found it. *)
Lemma link_loop_ok (base : Path) (files : list string) :
  plain_names files ->
  forall w w1 : World X,
  for_each files (qca_bt_link_one base) w = (w1, Ok tt) ->
  (forall file, file ∈ files ->
     fs (host w1) !! (base /: str_replace file "21" "01") = Some (Symlink file)) /\
  (files <> [] -> fs (host w1) !! base = Some Dir) /\
  (forall p, (forall file, file ∈ files -> p <> base /: str_replace file "21" "01") ->
     fs (host w1) !! p = fs (host w) !! p).
Proof.
  induction files as [|file files IH]; intros Hplain w w1; simpl.
  - intros E. inversion E; subst. split; [|split].
    + intros f Hf. inversion Hf.
    + intros H. contradiction H. reflexivity.
    + reflexivity.
  - pose proof (plain_names_link base _ file Hplain ltac:(left)) as Hlink.
    destruct (plain_names_cons _ _ Hplain) as [Hplain' Hfresh].
    unfold bind at 1.
    destruct (qca_bt_link_one base file w) as [w' [[]|e]] eqn:Estep;
      [|intros H; inversion H].
    intros Hrest.
    apply link_one_ok in Estep as [-> Hdir];
      [|rewrite Hlink, parent_plain; apply not_eq_sym, plain_ne_base].
    rewrite Hlink, parent_plain, path_eta in Hdir.
    destruct (IH Hplain' _ _ Hrest) as (Hlinks & _ & Hframe). simpl in Hframe.
    assert (Hbase : forall other, other ∈ file :: files ->
                      base <> base /: str_replace other "21" "01").
    { intros other Hin. rewrite (plain_names_link base _ other Hplain Hin).
      rewrite <- (path_eta base) at 1. apply not_eq_sym, plain_ne_base. }
    split; [|split].
    + intros f Hf. apply elem_of_cons in Hf as [->|Hf]; [|apply Hlinks; exact Hf].
      rewrite Hframe; [apply lookup_insert_eq|].
      intros other Hin. rewrite Hlink.
      rewrite (plain_names_link base _ other Hplain ltac:(right; exact Hin)).
      intros E. inversion E as [E']. apply app_inv_head in E'. inversion E' as [E''].
      apply (Hfresh _ Hin). symmetry. exact E''.
    + intros _.
      rewrite Hframe; [|intros other Hin; apply Hbase; right; exact Hin].
      rewrite lookup_insert_ne; [exact Hdir|].
      apply not_eq_sym. apply Hbase. left.
    + intros p Hp. rewrite Hframe; [|intros other Hin; apply Hp; right; exact Hin].
      simpl. apply lookup_insert_ne. apply not_eq_sym. apply Hp. left.
Qed.

(** A run over a tree that has every link: it goes through and changes
    nothing. *)
Lemma link_loop_again (base : Path) (files : list string) (w : World X) :
  plain_names files ->
  (forall file, file ∈ files ->
     fs (host w) !! (base /: str_replace file "21" "01") = Some (Symlink file)) ->
  fs (host w) !! base = Some Dir ->
  for_each files (qca_bt_link_one base) w = (w, Ok tt).
Proof.
  intros Hplain Hlinks Hdir. induction files as [|file files IH]; simpl.
  - reflexivity.
  - pose proof (plain_names_link base _ file Hplain ltac:(left)) as Hlink.
    destruct (plain_names_cons _ _ Hplain) as [Hplain' _].
    rewrite (bind_ok _ _ w w tt).
    + apply IH; [exact Hplain'|]. intros f Hf. apply Hlinks. right. exact Hf.
    + apply link_one_again.
      * rewrite Hlink, parent_plain. apply not_eq_sym, plain_ne_base.
      * apply Hlinks. left.
      * rewrite Hlink, parent_plain, path_eta. exact Hdir.
Qed.

Lemma qca_bt_files_plain : plain_names qca_bt_files.
Proof.
  split.
  - repeat constructor.
  - vm_compute. repeat (constructor; [by (intros H; repeat (apply elem_of_cons in H as [H|H]; [discriminate H|]); inversion H)|]).
    constructor.
Qed.

(** One round of the loop goes through whenever the directory of the link
    is a directory and the link name is not itself a directory. *)
Lemma link_one_runs (base : Path) (file : string) (w : World X) :
  let link := base /: str_replace file "21" "01" in
  parent link <> link ->
  fs (host w) !! parent link = Some Dir ->
  fs (host w) !! link <> Some Dir ->
  qca_bt_link_one base file w
    = (mkWorld (mkHost (<[link := Symlink file]> (fs (host w))) (ext (host w)))
               (printed w), Ok tt).
Proof.
  intros link Hne Hdir Hnot. unfold qca_bt_link_one. fold link.
  unfold bind, lift, unlink_missing_ok, symlink_to.
  destruct (fs (host w) !! link) as [[data| |target]|] eqn:E; simpl.
  - rewrite lookup_delete_eq, (lookup_delete_ne _ _ _ (not_eq_sym Hne)), Hdir.
    rewrite insert_delete_eq. reflexivity.
  - contradiction Hnot. reflexivity.
  - rewrite lookup_delete_eq, (lookup_delete_ne _ _ _ (not_eq_sym Hne)), Hdir.
    rewrite insert_delete_eq. reflexivity.
  - rewrite Hdir. simpl. rewrite E, Hdir. reflexivity.
Qed.

Lemma link_loop_runs (base : Path) (files : list string) :
  plain_names files ->
  forall w : World X,
  fs (host w) !! base = Some Dir ->
  (forall file, file ∈ files ->
     fs (host w) !! (base /: str_replace file "21" "01") <> Some Dir) ->
  exists w1, for_each files (qca_bt_link_one base) w = (w1, Ok tt).
Proof.
  induction files as [|file files IH]; intros Hplain w Hdir Hnot; simpl.
  - eexists. reflexivity.
  - pose proof (plain_names_link base _ file Hplain ltac:(left)) as Hlink.
    destruct (plain_names_cons _ _ Hplain) as [Hplain' Hfresh].
    assert (Hbase : base <> base /: str_replace file "21" "01").
    { rewrite Hlink. rewrite <- (path_eta base) at 1. apply not_eq_sym, plain_ne_base. }
    rewrite (bind_ok _ _ _ _ _ (link_one_runs base file w
               ltac:(rewrite Hlink, parent_plain; apply not_eq_sym, plain_ne_base)
               ltac:(rewrite Hlink, parent_plain, path_eta; exact Hdir)
               ltac:(apply Hnot; left))).
    apply (IH Hplain'); simpl.
    + rewrite lookup_insert_ne; [exact Hdir | apply not_eq_sym; exact Hbase].
    + intros other Hin. rewrite lookup_insert_ne; [apply Hnot; right; exact Hin|].
      rewrite Hlink, (plain_names_link base _ other Hplain ltac:(right; exact Hin)).
      intros E. inversion E as [E']. apply app_inv_head in E'. inversion E' as [E''].
      apply (Hfresh _ Hin). symmetry. exact E''.
Qed.

End Symlinks.

(** C7. The symlink patch can be run again on its own result: when a run
    has gone through, each of the eight 01-names is a link to its 21-file
    (one entry per name, and the eight names are distinct), and a second
    run on that tree goes through as well, raises nothing although every
    link is already there, and leaves the world exactly as it found it. *)
Theorem symlink_patch_idempotent {X} (log log' : Logger) (args : Args)
    (w w1 : World X) :
  patch_qca_bt_symlinks log args w = (w1, Ok tt) ->
  patch_qca_bt_symlinks log' args w1 = (w1, Ok tt) /\
  (forall file, file ∈ qca_bt_files ->
     fs (host w1) !! (path_out args /: "qca" /: str_replace file "21" "01")
       = Some (Symlink file)) /\
  map (fun file => str_replace file "21" "01") qca_bt_files
    = ["crbtfw01.tlv"; "crnv01.b3c"; "crnv01.b44"; "crnv01.b45";
       "crnv01.b46"; "crnv01.b47"; "crnv01.b71"; "crnv01.bin"] /\
  NoDup (map (fun file => str_replace file "21" "01") qca_bt_files).
Proof.
  intros Hrun. unfold patch_qca_bt_symlinks in *.
  destruct (link_loop_ok _ _ qca_bt_files_plain _ _ Hrun) as (Hlinks & Hdir & _).
  split; [|split; [exact Hlinks|split; [reflexivity | apply qca_bt_files_plain]]].
  apply link_loop_again; [apply qca_bt_files_plain | exact Hlinks |].
  apply Hdir. discriminate.
Qed.

Lemma symlink_patch_idempotent_witness :
  let w1 := fst (patch_qca_bt_symlinks Demo.log2 Demo.args Demo.gathered_world) in
  patch_qca_bt_symlinks Demo.log2 Demo.args w1 = (w1, Ok tt) /\
  fs (host w1) !! Path_of "out/qca/crbtfw01.tlv" = Some (Symlink "crbtfw21.tlv").
Proof.
  intros w1.
  assert (Hrun : patch_qca_bt_symlinks Demo.log2 Demo.args Demo.gathered_world
                 = (w1, Ok tt)).
  { apply (run_eq (patch_qca_bt_symlinks Demo.log2 Demo.args) Demo.gathered_world).
    vm_compute. reflexivity. }
  destruct (symlink_patch_idempotent Demo.log2 Demo.log2 Demo.args _ _ Hrun)
    as (H1 & H2 & _).
  split; [exact H1|].
  apply (H2 "crbtfw21.tlv"). left.
Defined.

(** The first run goes through on every output tree in which [qca] is a
    directory and none of the eight 01-names is a directory; files and
    links already sitting at those names are replaced. *)
Lemma symlink_patch_runs {X} (log : Logger) (args : Args) (w : World X) :
  fs (host w) !! (path_out args /: "qca") = Some Dir ->
  (forall file, file ∈ qca_bt_files ->
     fs (host w) !! (path_out args /: "qca" /: str_replace file "21" "01") <> Some Dir) ->
  exists w1, patch_qca_bt_symlinks log args w = (w1, Ok tt).
Proof.
  intros Hdir Hnot. unfold patch_qca_bt_symlinks.
  apply link_loop_runs; [apply qca_bt_files_plain | exact Hdir | exact Hnot].
Qed.

(* ===================================================================== *)
(** ** Properties: the patch phase *)
(* ===================================================================== *)

Section PatchPhase.
Context {X : Type} (plat : Platform X).

(** One round of [patch]. *)
Lemma patch_cons (log : Logger) (args : Args) (p : @Patch X) (rest : list (@Patch X))
    (w : World X) :
  patch log args (p :: rest) w =
    match Logger_sub log with
    | Ok sub_log =>
        bind (Patch_apply p sub_log args) (fun _ => patch log args rest)
             (logged log (patch_name p) w)
    | Raise e => (logged log (patch_name p) w, Raise e)
    end.
Proof.
  unfold patch. simpl. unfold bind at 1 2. unfold Logger_info, print. simpl.
  unfold bind at 1. unfold liftR. unfold logged.
  destruct (Logger_sub log) as [sub_log|e]; reflexivity.
Qed.

(** A patch phase that completes has logged the name of each patch once,
    in list order, when the patches themselves print nothing. *)
Lemma patch_printed (log : Logger) (args : Args) (pts : list (@Patch X)) :
  (forall p, p ∈ pts -> forall l a, quiet (fn p l a)) ->
  forall w w', patch log args pts w = (w', Ok tt) ->
  printed w' = printed w ++ map (fun p => pfx log +:+ patch_name p) pts.
Proof.
  induction pts as [|p pts IH]; intros Hq w w'.
  - intros E. inversion E. simpl. rewrite app_nil_r. reflexivity.
  - rewrite patch_cons. destruct (Logger_sub log) as [sub_log|e]; [|intros E; inversion E].
    unfold bind. unfold Patch_apply.
    destruct (fn p sub_log args (logged log (patch_name p) w)) as [w0 [[]|e]] eqn:E0;
      [|intros E; inversion E].
    intros E. rewrite (IH (fun q Hin => Hq q ltac:(right; exact Hin)) _ _ E).
    rewrite (Hq p ltac:(left) _ _ _ _ _ E0). simpl.
    rewrite <- app_assoc. reflexivity.
Qed.

Lemma patch_venus_extract_quiet (l : Logger) (a : Args) :
  quiet (patch_venus_extract plat l a).
Proof.
  unfold patch_venus_extract.
  repeat (apply quiet_bind; [apply quiet_lift | intros ?]). apply quiet_lift.
Qed.

Lemma patch_ath10k_board_quiet (l : Logger) (a : Args) :
  quiet (patch_ath10k_board plat l a).
Proof.
  unfold patch_ath10k_board.
  repeat (apply quiet_bind; [apply quiet_lift | intros ?]). apply quiet_lift.
Qed.

Lemma patch_ath10k_firmware_quiet (l : Logger) (a : Args) :
  quiet (patch_ath10k_firmware plat l a).
Proof.
  unfold patch_ath10k_firmware.
  apply quiet_bind; [apply quiet_lift | intros ?]. apply quiet_ret.
Qed.

Lemma patch_qca_bt_symlinks_quiet (l : Logger) (a : Args) :
  quiet (patch_qca_bt_symlinks (X:=X) l a).
Proof.
  unfold patch_qca_bt_symlinks. apply quiet_for_each. intros file.
  unfold qca_bt_link_one. apply quiet_bind; [apply quiet_lift | intros ?].
  apply quiet_lift.
Qed.

Lemma patches_quiet (p : @Patch X) :
  p ∈ patches plat -> forall l a, quiet (fn p l a).
Proof.
  unfold patches. intros H l a.
  repeat (apply elem_of_cons in H as [->|H]); simpl.
  - apply patch_venus_extract_quiet.
  - apply patch_ath10k_board_quiet.
  - apply patch_ath10k_firmware_quiet.
  - apply patch_qca_bt_symlinks_quiet.
  - inversion H.
Qed.

(** [main], for a user other than root: the gather phase, then the line
    that opens the patch phase, the patch phase, and the closing line. *)
Lemma main_phases (srcs : list (@source X)) (pts : list (@Patch X))
    (euid : Z) (cli_args : CliArgs) (w : World X) :
  euid <> 0 ->
  main srcs pts euid cli_args w =
    bind (gather (mkLogger 1 " -> ") (main_args cli_args) srcs)
         (fun _ =>
            bind (fun w' => patch (mkLogger 1 " -> ") (main_args cli_args) pts
                              (logged (mkLogger 0 "==> ") "patching firmware files" w'))
                 (fun _ => Logger_info (mkLogger 0 "==> ") "done!"))
         (logged (mkLogger 0 "==> ") "retrieving base firmware files" w).
Proof.
  intros Hne. unfold main. destruct (euid =? 0) eqn:E.
  - apply Z.eqb_eq in E. contradiction.
  - reflexivity.
Qed.

End PatchPhase.

(** X1. The patch list is venus, ath10k/board-2.bin, ath10k/firmware-5.bin,
    qca/bt; a patch phase over it is one application of each of the four,
    in that order, and a phase that completes has logged each of the four
    names exactly once, in that order, and nothing else. *)
Theorem patch_phase_runs_four_in_order {X} (plat : Platform X) :
  map patch_name (patches plat)
    = ["venus"; "ath10k/board-2.bin"; "ath10k/firmware-5.bin"; "qca/bt"] /\
  (forall (log sub_log : Logger) (args : Args) (w : World X),
     Logger_sub log = Ok sub_log ->
     patch log args (patches plat) w =
       bind (fun w0 => patch_venus_extract plat sub_log args (logged log "venus" w0))
         (fun _ =>
       bind (fun w0 => patch_ath10k_board plat sub_log args
                         (logged log "ath10k/board-2.bin" w0))
         (fun _ =>
       bind (fun w0 => patch_ath10k_firmware plat sub_log args
                         (logged log "ath10k/firmware-5.bin" w0))
         (fun _ =>
       bind (fun w0 => patch_qca_bt_symlinks sub_log args (logged log "qca/bt" w0))
         (fun _ => ret tt)))) w) /\
  (forall (log : Logger) (args : Args) (w w' : World X),
     patch log args (patches plat) w = (w', Ok tt) ->
     printed w' = printed w ++
       [pfx log +:+ "venus"; pfx log +:+ "ath10k/board-2.bin";
        pfx log +:+ "ath10k/firmware-5.bin"; pfx log +:+ "qca/bt"]).
Proof.
  split; [reflexivity|]. split.
  - intros log sub_log args w Hsub. unfold patches, patch. simpl.
    unfold bind, Logger_info, print, liftR, logged, Patch_apply. simpl.
    rewrite Hsub. reflexivity.
  - intros log args w w' H.
    apply (patch_printed log args (patches plat) (patches_quiet plat) _ _ H).
Qed.

Lemma patch_phase_runs_four_in_order_witness :
  printed (fst (patch Demo.log1 Demo.args (patches Demo.plat) Demo.gathered_world))
    = printed Demo.gathered_world ++
      [" -> venus"; " -> ath10k/board-2.bin"; " -> ath10k/firmware-5.bin"; " -> qca/bt"].
Proof.
  apply (proj2 (proj2 (patch_phase_runs_four_in_order Demo.plat)) Demo.log1 Demo.args
           Demo.gathered_world).
  apply (run_eq (patch Demo.log1 Demo.args (patches Demo.plat)) Demo.gathered_world).
  vm_compute. reflexivity.
Defined.

(** X2. [main] refuses to run as root: it prints the notice and exits with
    status 1 without touching the host.  For any other user it gathers
    first: when gathering raises, [main] raises there, whatever the patch
    list is, and only when gathering has returned does it log the opening
    of the patch phase and run the patches. *)
Theorem main_gathers_then_patches {X} (srcs : list (@source X)) (pts : list (@Patch X))
    (cli_args : CliArgs) (w : World X) :
  main srcs pts 0 cli_args w
    = (mkWorld (host w) (printed w ++ ["Please do not run this script as root!"]),
       Raise (SystemExit 1)) /\
  (forall (euid : Z) (w1 : World X) (e : exn),
     euid <> 0 ->
     gather (mkLogger 1 " -> ") (main_args cli_args) srcs
            (logged (mkLogger 0 "==> ") "retrieving base firmware files" w)
       = (w1, Raise e) ->
     main srcs pts euid cli_args w = (w1, Raise e)) /\
  (forall (euid : Z) (w1 : World X),
     euid <> 0 ->
     gather (mkLogger 1 " -> ") (main_args cli_args) srcs
            (logged (mkLogger 0 "==> ") "retrieving base firmware files" w)
       = (w1, Ok tt) ->
     main srcs pts euid cli_args w =
       bind (patch (mkLogger 1 " -> ") (main_args cli_args) pts)
            (fun _ => Logger_info (mkLogger 0 "==> ") "done!")
            (logged (mkLogger 0 "==> ") "patching firmware files" w1)).
Proof.
  split; [reflexivity|]. split.
  - intros euid w1 e Hne Hg.
    rewrite (main_phases _ _ _ _ _ Hne). apply bind_raise. exact Hg.
  - intros euid w1 Hne Hg.
    rewrite (main_phases _ _ _ _ _ Hne). rewrite (bind_ok _ _ _ _ _ Hg). reflexivity.
Qed.

Lemma main_gathers_then_patches_witness :
  let w1 := fst (gather Demo.log1 (main_args Demo.cli) Demo.three_stubs
                   (logged (mkLogger 0 "==> ") "retrieving base firmware files"
                           Demo.empty_out)) in
  main Demo.three_stubs Demo.three_patches 1000 Demo.cli Demo.empty_out
    = (w1, Raise (OSError "two")).
Proof.
  intros w1.
  refine (proj1 (proj2 (main_gathers_then_patches Demo.three_stubs Demo.three_patches
                          Demo.cli Demo.empty_out)) 1000 w1 (OSError "two") _ _).
  - lia.
  - apply (run_eq (gather Demo.log1 (main_args Demo.cli) Demo.three_stubs)).
    vm_compute. reflexivity.
Defined.

(** Recording sources and patches under [main]: both sources, then the
    patches in list order up to the one that fails, each entered once. *)
Example main_two_stubs_three_patches :
  let r := main Demo.two_stubs Demo.three_patches 1000 Demo.cli Demo.empty_out in
  snd r = Raise (OSError "b") /\
  printed (fst r) =
    ["==> retrieving base firmware files";
     " -> one"; "materialize one"; " -> three"; "materialize three";
     "==> patching firmware files";
     " -> a"; "apply a"; " -> b"; "apply b"].
Proof. split; vm_compute; reflexivity. Qed.

(** A run in which gathering fails prints nothing of the patch phase. *)
Example main_three_stubs_no_patch :
  let r := main Demo.three_stubs Demo.three_patches 1000 Demo.cli Demo.empty_out in
  snd r = Raise (OSError "two") /\
  printed (fst r) =
    ["==> retrieving base firmware files";
     " -> one"; "materialize one"; " -> two"; "materialize two"].
Proof. split; vm_compute; reflexivity. Qed.

(** X3. The patch phase stops at the first patch that raises: the phase
    raises that exception in the world the failing patch left; the patches
    after it are not applied, the failing one is not tried again, and what
    earlier patches did stays. *)
Theorem patch_phase_stops_at_first_raise {X} (log sub_log : Logger) (args : Args)
    (before : list (@Patch X)) (failing : @Patch X) (after : list (@Patch X))
    (w w1 w2 : World X) (e : exn) :
  Logger_sub log = Ok sub_log ->
  patch log args before w = (w1, Ok tt) ->
  Patch_apply failing sub_log args (logged log (patch_name failing) w1) = (w2, Raise e) ->
  patch log args (before ++ failing :: after) w = (w2, Raise e).
Proof.
  intros Hsub Hbefore Hfail. unfold patch in *.
  apply (for_each_abort _ _ _ _ _ _ _ _ Hbefore).
  unfold bind at 1. unfold Logger_info, print.
  unfold bind at 1. unfold liftR. rewrite Hsub. exact Hfail.
Qed.

Lemma patch_phase_stops_at_first_raise_witness :
  let a := Sim.stub_patch "a" false in
  let b := Sim.stub_patch "b" true in
  let c := Sim.stub_patch "c" false in
  let w1 := fst (patch Demo.log1 Demo.args [a] Demo.empty_out) in
  let w2 := fst (Patch_apply b Demo.log2 Demo.args (logged Demo.log1 "b" w1)) in
  patch Demo.log1 Demo.args ([a] ++ b :: [c]) Demo.empty_out = (w2, Raise (OSError "b")).
Proof.
  intros a b c w1 w2.
  refine (patch_phase_stops_at_first_raise Demo.log1 Demo.log2 Demo.args [a] b [c]
            Demo.empty_out w1 w2 (OSError "b") _ _ _).
  - reflexivity.
  - apply (run_eq (patch Demo.log1 Demo.args [a]) Demo.empty_out). vm_compute. reflexivity.
  - apply (run_eq (Patch_apply b Demo.log2 Demo.args)). vm_compute. reflexivity.
Defined.

Section ExitStatus.
Context {X : Type} (plat : Platform X) (status : Z).

Lemma patch_venus_extract_status (log : Logger) (args : Args) (w : World X) :
  patch_venus_extract (with_exit_status status plat) log args w
    = patch_venus_extract plat log args w.
Proof.
  unfold patch_venus_extract, PATH_THIRDPARTY, bind, lift. simpl.
  destruct (mkdir_parents plat _ (host w)) as [h1 [[]|e]]; simpl; [|reflexivity].
  destruct (subprocess_call plat _ h1) as [h2 [z|e]]; reflexivity.
Qed.

Lemma patch_ath10k_board_status (log : Logger) (args : Args) (w : World X) :
  patch_ath10k_board (with_exit_status status plat) log args w
    = patch_ath10k_board plat log args w.
Proof.
  unfold patch_ath10k_board, PATH_THIRDPARTY, bind, lift. simpl.
  destruct (resolve plat _ (host w)) as [h1 [out1|e]]; simpl; [|reflexivity].
  destruct (resolve plat _ h1) as [h2 [out2|e]]; simpl; [|reflexivity].
  destruct (NamedTemporaryFile plat h2) as [h3 [file_name|e]]; simpl; [|reflexivity].
  destruct (json_dump plat _ file_name h3) as [h4 [[]|e]]; simpl; [|reflexivity].
  destruct (subprocess_call plat _ h4) as [h5 [z|e]]; reflexivity.
Qed.

Lemma patch_ath10k_firmware_status (log : Logger) (args : Args) (w : World X) :
  patch_ath10k_firmware (with_exit_status status plat) log args w
    = patch_ath10k_firmware plat log args w.
Proof.
  unfold patch_ath10k_firmware, PATH_THIRDPARTY, bind, lift. simpl.
  destruct (subprocess_call plat _ (host w)) as [h1 [z|e]]; reflexivity.
Qed.

End ExitStatus.

(** X4. The exit status of a spawned tool never matters to the patches:
    each of the three patches that spawn one, and the whole patch phase,
    ends in the same world with the same outcome whatever status the tools
    return, zero or not.  Only a spawn that raises stops a patch. *)
Theorem exit_status_never_matters {X} (plat : Platform X) (status : Z)
    (log : Logger) (args : Args) (w : World X) :
  patch_venus_extract (with_exit_status status plat) log args w
    = patch_venus_extract plat log args w /\
  patch_ath10k_board (with_exit_status status plat) log args w
    = patch_ath10k_board plat log args w /\
  patch_ath10k_firmware (with_exit_status status plat) log args w
    = patch_ath10k_firmware plat log args w /\
  patch log args (patches (with_exit_status status plat)) w
    = patch log args (patches plat) w.
Proof.
  split; [apply patch_venus_extract_status|].
  split; [apply patch_ath10k_board_status|].
  split; [apply patch_ath10k_firmware_status|].
  unfold patches. rewrite !patch_cons.
  destruct (Logger_sub log) as [sub_log|e]; [|reflexivity].
  unfold Patch_apply, bind. simpl.
  rewrite patch_venus_extract_status.
  destruct (patch_venus_extract plat sub_log args _) as [w1 [[]|e]]; [|reflexivity].
  rewrite !patch_cons. destruct (Logger_sub log) as [sub_log'|e]; [|reflexivity].
  unfold Patch_apply, bind. simpl.
  rewrite patch_ath10k_board_status.
  destruct (patch_ath10k_board plat sub_log' args _) as [w2 [[]|e]]; [|reflexivity].
  rewrite !patch_cons. destruct (Logger_sub log) as [sub_log''|e]; [|reflexivity].
  unfold Patch_apply, bind. simpl.
  rewrite patch_ath10k_firmware_status.
  destruct (patch_ath10k_firmware plat sub_log'' args _) as [w3 [[]|e]]; reflexivity.
Qed.

(** With every tool failing (exit status 1) and the two files that
    patches 2 and 3 read missing, the patch phase still completes and the
    last patch has made its links. *)
Example patch_phase_with_failing_tools :
  let r := patch Demo.log1 Demo.args (patches Demo.plat_tools_fail)
                 Demo.incomplete_world in
  (forall argv h, snd (subprocess_call Demo.plat_tools_fail argv h) = Ok 1) /\
  fs (host Demo.incomplete_world)
    !! Path_of "out/ath10k/WCN3990/hw1.0/firmware-5.bin" = None /\
  fs (host Demo.incomplete_world)
    !! Path_of "out/ath10k/WCN3990/hw1.0/boards/bdwlan.b58" = None /\
  snd r = Ok tt /\
  printed (fst r)
    = [" -> venus"; " -> ath10k/board-2.bin"; " -> ath10k/firmware-5.bin"; " -> qca/bt"] /\
  fs (host (fst r)) !! Path_of "out/qca/crnv01.bin" = Some (Symlink "crnv21.bin").
Proof.
  split; [intros argv h; reflexivity|].
  repeat split; vm_compute; reflexivity.
Qed.

(** X5. [gather] and [patch] need a logger they can nest under: called
    with a logger of level 2 on a non-empty list, each logs the name of the
    first entry and raises IndexError there; no source is materialized and
    no patch applied. *)
Theorem phases_need_room_to_nest {X} (log : Logger) (args : Args) (w : World X) :
  level log = 2 ->
  (forall (src : @source X) (rest : list (@source X)),
     gather log args (src :: rest) w
       = (logged log (src_name src) w, Raise (IndexError "list index out of range"))) /\
  (forall (p : @Patch X) (rest : list (@Patch X)),
     patch log args (p :: rest) w
       = (logged log (patch_name p) w, Raise (IndexError "list index out of range"))).
Proof.
  intros Hlevel.
  assert (Hsub : Logger_sub log = Raise (IndexError "list index out of range")).
  { unfold Logger_sub. rewrite Hlevel. reflexivity. }
  split.
  - intros src rest. unfold gather. simpl.
    unfold bind, Logger_info, print, liftR, logged. rewrite Hsub. reflexivity.
  - intros p rest. rewrite patch_cons, Hsub. reflexivity.
Qed.

Lemma phases_need_room_to_nest_witness :
  gather Demo.log2 Demo.args Demo.three_stubs Demo.empty_out
    = (logged Demo.log2 "one" Demo.empty_out, Raise (IndexError "list index out of range")).
Proof.
  apply (proj1 (phases_need_room_to_nest Demo.log2 Demo.args Demo.empty_out eq_refl)).
Defined.

(* ===================================================================== *)
(** ** More on file-map normalisation, the logger and the lookup *)
(* ===================================================================== *)

(** X6. Whatever normalisation returns is a dict, and normalising it again
    returns it unchanged. *)
Theorem filemap_idempotent (v m : pyval) :
  _filemap v = Ok m ->
  (exists d, m = PyDict d) /\ _filemap m = Ok m.
Proof.
  destruct v; simpl; try discriminate.
  - destruct (dict_comp xs []) as [d|e]; simpl; intros E; inversion E; subst.
    split; [eexists; reflexivity | reflexivity].
  - intros E. inversion E; subst. split; [eexists; reflexivity | reflexivity].
Qed.

Lemma filemap_idempotent_witness :
  (exists d, PyDict [(KStr "a", PyStr "a"); (KStr "b", PyStr "b")] = PyDict d) /\
  _filemap (PyDict [(KStr "a", PyStr "a"); (KStr "b", PyStr "b")])
    = Ok (PyDict [(KStr "a", PyStr "a"); (KStr "b", PyStr "b")]).
Proof.
  apply (filemap_idempotent (strs ["a"; "b"])). reflexivity.
Defined.

Lemma dict_set_fresh (d : dict) (k : pykey) (v : pyval) :
  k ∉ dict_keys d -> dict_set d k v = d ++ [(k, v)].
Proof.
  unfold dict_keys. induction d as [|[k' v'] d IH]; simpl; intros H; [reflexivity|].
  destruct (decide (k' = k)) as [->|N].
  - exfalso. apply H. left.
  - rewrite IH; [reflexivity|]. intros Hin. apply H. right. exact Hin.
Qed.

Lemma dict_comp_distinct (xs : list string) (acc : dict) :
  NoDup xs -> (forall x, x ∈ xs -> KStr x ∉ dict_keys acc) ->
  dict_comp (map PyStr xs) acc = Ok (acc ++ map (fun x => (KStr x, PyStr x)) xs).
Proof.
  revert acc. induction xs as [|x xs IH]; intros acc Hnd Hfresh; simpl.
  - rewrite app_nil_r. reflexivity.
  - apply NoDup_cons in Hnd as [Hx Hnd].
    rewrite dict_set_fresh by (apply Hfresh; left).
    rewrite IH; [rewrite <- app_assoc; reflexivity | exact Hnd |].
    intros y Hy. unfold dict_keys. rewrite map_app. simpl.
    rewrite elem_of_app, list_elem_of_singleton. intros [H|H].
    + apply (Hfresh y); [right; exact Hy | exact H].
    + inversion H; subst. contradiction.
Qed.

(** X7. A list of distinct strings is normalised to the mapping that has
    the entries of the list in list order, each mapped to itself: the
    order in which [items()] later yields them is the order of the list. *)
Theorem filemap_keeps_list_order (xs : list string) :
  NoDup xs ->
  _filemap (strs xs) = Ok (PyDict (map (fun x => (KStr x, PyStr x)) xs)).
Proof.
  intros Hnd. unfold _filemap, strs.
  rewrite (dict_comp_distinct xs [] Hnd); [reflexivity|].
  intros x _ H. inversion H.
Qed.

Lemma filemap_keeps_list_order_witness :
  _filemap (strs ["qcadsp8180.mbn"; "a.bin"])
    = Ok (PyDict [(KStr "qcadsp8180.mbn", PyStr "qcadsp8180.mbn");
                  (KStr "a.bin", PyStr "a.bin")]).
Proof.
  apply (filemap_keeps_list_order ["qcadsp8180.mbn"; "a.bin"]).
  apply NoDup_cons. split.
  - intros H. apply list_elem_of_singleton in H. discriminate H.
  - apply NoDup_singleton.
Defined.

Lemma dict_comp_unhashable (xs : list pyval) (x : pyval) (acc : dict) :
  x ∈ xs -> hash_key x = None ->
  dict_comp xs acc = Raise (TypeError "unhashable type").
Proof.
  intros Hin Hx. revert acc. induction xs as [|y ys IH]; intros acc; simpl.
  - inversion Hin.
  - apply elem_of_cons in Hin as [<-|Hin].
    + rewrite Hx. reflexivity.
    + destruct (hash_key y); [apply IH; exact Hin | reflexivity].
Qed.

(** X8. A list that holds an unhashable entry (a list or a dict) is not
    normalised: the comprehension raises TypeError, not the "invalid file
    map" exception, wherever in the list the entry sits. *)
Theorem filemap_unhashable_entry (xs : list pyval) (x : pyval) :
  x ∈ xs -> hash_key x = None ->
  _filemap (PyList xs) = Raise (TypeError "unhashable type").
Proof.
  intros Hin Hx. unfold _filemap.
  rewrite (dict_comp_unhashable xs x [] Hin Hx). reflexivity.
Qed.

Lemma filemap_unhashable_entry_witness :
  _filemap (PyList [PyStr "a.bin"; PyList [PyStr "b.bin"]])
    = Raise (TypeError "unhashable type").
Proof.
  apply (filemap_unhashable_entry _ (PyList [PyStr "b.bin"])).
  - right. left.
  - reflexivity.
Defined.

(** X9. [Logger(level)] succeeds exactly for the levels -3 to 2: a
    negative level counts from the end of the prefix table, so the logger
    of level l and the logger of level l + 3 share a prefix, and every
    other level raises IndexError. *)
Theorem logger_accepts_levels (l : Z) :
  (-3 <= l <= 2 ->
     exists p, nth_error log_pfx (Z.to_nat (l mod 3)) = Some p /\
               Logger_init l = Ok (mkLogger l p)) /\
  (l < -3 \/ 2 < l -> Logger_init l = Raise (IndexError "list index out of range")).
Proof.
  split.
  - intros H.
    assert (C : l = -3 \/ l = -2 \/ l = -1 \/ l = 0 \/ l = 1 \/ l = 2) by lia.
    destruct C as [->|[->|[->|[->|[->| ->]]]]]; eexists; split; reflexivity.
  - intros H. unfold Logger_init, py_index. simpl length.
    destruct (l <? 0) eqn:Hneg.
    + apply Z.ltb_lt in Hneg.
      destruct ((0 <=? l + Z.of_nat 3) && (l + Z.of_nat 3 <? Z.of_nat 3)) eqn:Hr;
        [|reflexivity].
      apply andb_prop in Hr as [Hr _]. apply Z.leb_le in Hr. lia.
    + apply Z.ltb_ge in Hneg.
      destruct ((0 <=? l) && (l <? Z.of_nat 3)) eqn:Hr; [|reflexivity].
      apply andb_prop in Hr as [_ Hr]. apply Z.ltb_lt in Hr. lia.
Qed.

Lemma logger_accepts_levels_witness :
  (exists p, nth_error log_pfx (Z.to_nat ((-1) mod 3)) = Some p /\
             Logger_init (-1) = Ok (mkLogger (-1) p)) /\
  Logger_init 3 = Raise (IndexError "list index out of range").
Proof.
  split.
  - apply (proj1 (logger_accepts_levels (-1))). lia.
  - apply (proj2 (logger_accepts_levels 3)). lia.
Defined.

(** X10. When exactly one child of the repository root has a name that
    starts with the prefix, the lookup returns that child, in whatever
    order the children are listed. *)
Theorem find_source_directory_unique_match (prefix : string) (children : list Path)
    (p : Path) :
  p ∈ children ->
  String.prefix prefix (name_of p) = true ->
  (forall q, q ∈ children -> String.prefix prefix (name_of q) = true -> q = p) ->
  forall listing, listing ≡ₚ children ->
    find_source_directory_in prefix listing = Some p.
Proof.
  intros Hin Hp Huniq listing Hperm.
  pose proof (find_source_directory_in_spec prefix listing) as Hs.
  destruct (find_source_directory_in prefix listing) as [r|].
  - destruct Hs as (before & after & Hl & Hr & _).
    f_equal. apply Huniq; [|exact Hr].
    rewrite <- Hperm, Hl. apply elem_of_app. right. left.
  - rewrite <- Hperm in Hin. rewrite (Hs _ Hin) in Hp. discriminate Hp.
Qed.

Lemma find_source_directory_unique_match_witness :
  find_source_directory_in "pkg" [Path_of "repo/pkg-v1"; Path_of "repo/baz"]
    = Some (Path_of "repo/pkg-v1").
Proof.
  apply (find_source_directory_unique_match "pkg"
           [Path_of "repo/baz"; Path_of "repo/pkg-v1"] (Path_of "repo/pkg-v1")).
  - right. left.
  - reflexivity.
  - intros q Hq Hpre.
    apply elem_of_cons in Hq as [->|Hq]; [discriminate Hpre|].
    apply list_elem_of_singleton in Hq. exact Hq.
  - apply Permutation_swap.
Defined.

(** X11. When the repository root cannot be listed, the lookup raises the
    exception of the listing, and so does [get]: nothing is logged, no
    directory is created and no file is copied. *)
Theorem get_propagates_listing_error {X} (plat : Platform X)
    (self : WindowsDriverFirmware) (log : Logger) (args : Args) (w : World X)
    (h' : Host X) (e : exn) :
  iterdir plat (path_wdsfr args) (host w) = (h', Raise e) ->
  _find_source_directory plat self args w = (mkWorld h' (printed w), Raise e) /\
  WindowsDriverFirmware_get plat self log args w = (mkWorld h' (printed w), Raise e).
Proof.
  intros H.
  assert (Hfind : _find_source_directory plat self args w
                  = (mkWorld h' (printed w), Raise e)).
  { unfold _find_source_directory. apply bind_raise. apply lift_eq. exact H. }
  split; [exact Hfind|].
  unfold WindowsDriverFirmware_get. apply bind_raise. exact Hfind.
Qed.

Lemma get_propagates_listing_error_witness :
  let h' := fst (iterdir Demo.plat Demo.repo (host Demo.empty_out)) in
  WindowsDriverFirmware_get Demo.plat Demo.wdf_foo Demo.log2 Demo.args Demo.empty_out
    = (mkWorld h' (printed Demo.empty_out),
       Raise (FileNotFoundError "win/Windows/System32/DriverStore/FileRepository")).
Proof.
  intros h'.
  apply (get_propagates_listing_error Demo.plat Demo.wdf_foo Demo.log2 Demo.args
           Demo.empty_out h').
  apply (call_eq (iterdir Demo.plat Demo.repo)). vm_compute. reflexivity.
Defined.

(* ===================================================================== *)
(** ** More on the two kinds of source *)
(* ===================================================================== *)

Section Sources.
Context {X : Type} (plat : Platform X).

Lemma copy_loop_printed (self : WindowsDriverFirmware) (log : Logger) (args : Args)
    (base : Path) (l : list (string * string)) :
  forall w w' : World X,
  for_each (str_dict l) (WindowsDriverFirmware_copy_one plat self log args (Some base)) w
    = (w', Ok tt) ->
  printed w' = printed w ++ map (copying_line self log base) l.
Proof.
  induction l as [|[s t] l IH]; intros w w' H.
  - inversion H. simpl. rewrite app_nil_r. reflexivity.
  - change (bind (WindowsDriverFirmware_copy_one plat self log args (Some base)
                    (KStr s, PyStr t))
                 (fun _ => for_each (str_dict l)
                             (WindowsDriverFirmware_copy_one plat self log args (Some base)))
                 w = (w', Ok tt)) in H.
    unfold bind at 1 in H.
    destruct (WindowsDriverFirmware_copy_one plat self log args (Some base)
                (KStr s, PyStr t) w) as [w1 [[]|e]] eqn:E1; [|inversion H].
    rewrite (IH _ _ H). simpl map.
    assert (Hp : printed w1 = printed w ++ [copying_line self log base (s, t)]).
    { revert E1.
      unfold WindowsDriverFirmware_copy_one, bind, liftR, lift, Logger_info, print.
      simpl.
      destruct (mkdir_parents plat _ (host w)) as [h1 [[]|e1]]; simpl;
        [|intros E1; inversion E1].
      destruct (shutil_copy plat _ _ h1) as [h2 [[]|e2]]; simpl; intros E1; inversion E1.
      reflexivity. }
    rewrite Hp, <- app_assoc. reflexivity.
Qed.

Lemma fetch_loop_printed (self : DownloadFirmware) (log : Logger) (args : Args)
    (l : list (string * string)) :
  forall w w' : World X,
  for_each (str_dict l) (DownloadFirmware_fetch_one plat self log args) w = (w', Ok tt) ->
  printed w' = printed w ++ map (downloading_line self log) l.
Proof.
  induction l as [|[s t] l IH]; intros w w' H.
  - inversion H. simpl. rewrite app_nil_r. reflexivity.
  - change (bind (DownloadFirmware_fetch_one plat self log args (KStr s, PyStr t))
                 (fun _ => for_each (str_dict l)
                             (DownloadFirmware_fetch_one plat self log args))
                 w = (w', Ok tt)) in H.
    unfold bind at 1 in H.
    destruct (DownloadFirmware_fetch_one plat self log args (KStr s, PyStr t) w)
      as [w1 [[]|e]] eqn:E1; [|inversion H].
    rewrite (IH _ _ H). simpl map.
    assert (Hp : printed w1 = printed w ++ [downloading_line self log (s, t)]).
    { revert E1.
      unfold DownloadFirmware_fetch_one, bind, liftR, lift, Logger_info, print.
      simpl.
      destruct (mkdir_parents plat _ (host w)) as [h1 [[]|e1]]; simpl;
        [|intros E1; inversion E1].
      destruct (urlretrieve plat _ _ h1) as [h2 [[]|e2]]; simpl; intros E1; inversion E1.
      reflexivity. }
    rewrite Hp, <- app_assoc. reflexivity.
Qed.

End Sources.

(** X12. A local source whose file map takes strings to strings and
    whose [get] returns normally has logged exactly one line per entry of
    the map, in the order of the map, naming the file under the directory
    that was found and its place under the target directory. *)
Theorem local_get_logs_each_copy {X} (plat : Platform X)
    (self : WindowsDriverFirmware) (log : Logger) (args : Args)
    (l : list (string * string)) (base : Path) (w w' : World X)
    (h' : Host X) (children : list Path) :
  wdf_files self = PyDict (str_dict l) ->
  iterdir plat (path_wdsfr args) (host w) = (h', Ok children) ->
  find_source_directory_in (wdf_source_directory self) children = Some base ->
  WindowsDriverFirmware_get plat self log args w = (w', Ok tt) ->
  printed w' = printed w ++ map (copying_line self log base) l.
Proof.
  intros Hfiles Hls Hfound Hget. unfold WindowsDriverFirmware_get in Hget.
  rewrite (bind_ok _ _ _ _ _ (find_source_directory_eq plat self args w h' children Hls))
    in Hget.
  rewrite Hfiles, Hfound in Hget.
  apply (copy_loop_printed plat self log args base l) in Hget. exact Hget.
Qed.

Lemma local_get_logs_each_copy_witness :
  printed (fst (WindowsDriverFirmware_get Demo.plat Demo.wdf_pkg Demo.log2 Demo.args
                  Demo.pkg_world))
    = printed Demo.pkg_world ++
      map (copying_line Demo.wdf_pkg Demo.log2 (Demo.repo /: "pkg-v1")) [("a.bin", "a.bin")].
Proof.
  apply (local_get_logs_each_copy Demo.plat Demo.wdf_pkg Demo.log2 Demo.args
           [("a.bin", "a.bin")] (Demo.repo /: "pkg-v1") Demo.pkg_world _
           (fst (iterdir Demo.plat Demo.repo (host Demo.pkg_world)))
           (Demo.returned (snd (iterdir Demo.plat Demo.repo (host Demo.pkg_world))) [])).
  - reflexivity.
  - apply (call_eq (iterdir Demo.plat Demo.repo)). vm_compute. reflexivity.
  - vm_compute. reflexivity.
  - apply (run_eq (WindowsDriverFirmware_get Demo.plat Demo.wdf_pkg Demo.log2 Demo.args)).
    vm_compute. reflexivity.
Defined.

(** The local source at work on the simulated host: the file arrives
    under the target directory with the content it has in the package. *)
Example local_get_copies :
  let r := WindowsDriverFirmware_get Demo.plat Demo.wdf_pkg Demo.log2 Demo.args
             Demo.pkg_world in
  snd r = Ok tt /\
  fs (host (fst r)) !! Path_of "out/tgt/a.bin" = Some (File "AAA").
Proof. split; vm_compute; reflexivity. Qed.

(** X13. A download source whose file map takes strings to strings and
    whose [get] returns normally has logged exactly one line per entry, in
    the order of the map, naming the URL (the base URL, a slash, the key)
    and the place under the target directory; and [get] does not depend
    on where the Windows repository is. *)
Theorem download_get_logs_each_fetch {X} (plat : Platform X)
    (self : DownloadFirmware) (log : Logger) (args : Args)
    (l : list (string * string)) (w w' : World X) :
  df_files self = PyDict (str_dict l) ->
  DownloadFirmware_get plat self log args w = (w', Ok tt) ->
  printed w' = printed w ++ map (downloading_line self log) l /\
  (forall repo : Path,
     DownloadFirmware_get plat self log (mkArgs repo (path_out args)) w = (w', Ok tt)).
Proof.
  intros Hfiles Hget. split.
  - unfold DownloadFirmware_get in Hget. rewrite Hfiles in Hget.
    apply (fetch_loop_printed plat self log args l) in Hget. exact Hget.
  - intros repo. rewrite <- Hget. reflexivity.
Qed.

Lemma download_get_logs_each_fetch_witness :
  printed (fst (DownloadFirmware_get Demo.plat_net Demo.df_b Demo.log2 Demo.args
                  Demo.empty_out))
    = printed Demo.empty_out ++
      map (downloading_line Demo.df_b Demo.log2) [("b.bin", "sub/b.bin")].
Proof.
  apply (proj1 (download_get_logs_each_fetch Demo.plat_net Demo.df_b Demo.log2 Demo.args
                  [("b.bin", "sub/b.bin")] Demo.empty_out _ eq_refl
                  (run_eq (DownloadFirmware_get Demo.plat_net Demo.df_b Demo.log2 Demo.args)
                          Demo.empty_out (Ok tt) eq_refl))).
Defined.

(** The download source at work on the simulated host. *)
Example download_get_fetches :
  let r := DownloadFirmware_get Demo.plat_net Demo.df_b Demo.log2 Demo.args
             Demo.empty_out in
  snd r = Ok tt /\
  printed (fst r) = ["    downloading 'http://host/fw/b.bin' to 'tgt/sub/b.bin'"] /\
  fs (host (fst r)) !! Path_of "out/tgt/sub/b.bin" = Some (File "BBB").
Proof. repeat split; vm_compute; reflexivity. Qed.

(** X14. Within a local source the first entry that fails ends [get]:
    when the entries before it have been copied and its own round raises,
    [get] raises that exception in the world that round left; the entries
    after it are not processed and the files copied before it stay. *)
Theorem local_get_stops_at_first_failure {X} (plat : Platform X)
    (self : WindowsDriverFirmware) (log : Logger) (args : Args)
    (before : dict) (entry : pykey * pyval) (after : dict)
    (w w1 w2 : World X) (h' : Host X) (children : list Path) (e : exn) :
  wdf_files self = PyDict (before ++ entry :: after) ->
  iterdir plat (path_wdsfr args) (host w) = (h', Ok children) ->
  for_each before
    (WindowsDriverFirmware_copy_one plat self log args
       (find_source_directory_in (wdf_source_directory self) children))
    (mkWorld h' (printed w)) = (w1, Ok tt) ->
  WindowsDriverFirmware_copy_one plat self log args
    (find_source_directory_in (wdf_source_directory self) children) entry w1
    = (w2, Raise e) ->
  WindowsDriverFirmware_get plat self log args w = (w2, Raise e).
Proof.
  intros Hfiles Hls Hbefore Hentry. unfold WindowsDriverFirmware_get.
  rewrite (bind_ok _ _ _ _ _ (find_source_directory_eq plat self args w h' children Hls)).
  rewrite Hfiles. simpl items. unfold bind at 1. unfold liftR.
  apply (for_each_abort _ _ _ _ _ _ _ _ Hbefore Hentry).
Qed.

Lemma local_get_stops_at_first_failure_witness :
  snd (WindowsDriverFirmware_get Demo.plat Demo.wdf_pkg_missing Demo.log2 Demo.args
         Demo.pkg_world)
    = Raise (FileNotFoundError
               "win/Windows/System32/DriverStore/FileRepository/pkg-v1/nope.bin").
Proof.
  pose (children := Demo.returned (snd (iterdir Demo.plat Demo.repo (host Demo.pkg_world))) []).
  pose (h' := fst (iterdir Demo.plat Demo.repo (host Demo.pkg_world))).
  pose (round := WindowsDriverFirmware_copy_one Demo.plat Demo.wdf_pkg_missing Demo.log2
                   Demo.args (find_source_directory_in "pkg" children)).
  pose (w1 := fst (for_each [(KStr "a.bin", PyStr "a.bin")] round
                     (mkWorld h' (printed Demo.pkg_world)))).
  pose (w2 := fst (round (KStr "nope.bin", PyStr "nope.bin") w1)).
  rewrite (local_get_stops_at_first_failure Demo.plat Demo.wdf_pkg_missing Demo.log2
             Demo.args [(KStr "a.bin", PyStr "a.bin")] (KStr "nope.bin", PyStr "nope.bin")
             [(KStr "b.bin", PyStr "b.bin")] Demo.pkg_world w1 w2 h' children
             (FileNotFoundError
                "win/Windows/System32/DriverStore/FileRepository/pkg-v1/nope.bin")).
  - reflexivity.
  - reflexivity.
  - apply (call_eq (iterdir Demo.plat Demo.repo)). vm_compute. reflexivity.
  - apply (run_eq (for_each [(KStr "a.bin", PyStr "a.bin")] round)). vm_compute. reflexivity.
  - apply (run_eq (round (KStr "nope.bin", PyStr "nope.bin"))). vm_compute. reflexivity.
Defined.

(** The same run on the simulated host: the file before the missing one
    has been copied, the one after it has not. *)
Example local_get_missing_file :
  let r := WindowsDriverFirmware_get Demo.plat Demo.wdf_pkg_missing Demo.log2 Demo.args
             Demo.pkg_world in
  fs (host (fst r)) !! Path_of "out/tgt/a.bin" = Some (File "AAA") /\
  fs (host (fst r)) !! Path_of "out/tgt/b.bin" = None.
Proof. split; vm_compute; reflexivity. Qed.

(* ===================================================================== *)
(** ** More on the symlink patch *)
(* ===================================================================== *)

Lemma unlink_ext {X} (p : Path) (h h' : Host X) (r : result unit) :
  unlink_missing_ok p h = (h', r) -> ext h' = ext h.
Proof.
  unfold unlink_missing_ok.
  destruct (fs h !! p) as [[| |]|]; [| | |destruct (fs h !! parent p) as [[| |]|]];
    intros E; inversion E; reflexivity.
Qed.

Lemma symlink_ext {X} (p : Path) (target : string) (h h' : Host X) (r : result unit) :
  symlink_to p target h = (h', r) -> ext h' = ext h.
Proof.
  unfold symlink_to.
  destruct (fs h !! p) as [[| |]|]; [| | |destruct (fs h !! parent p) as [[| |]|]];
    intros E; inversion E; reflexivity.
Qed.

(** One round of the loop, however it ends, leaves the host outside the
    file tree alone. *)
Lemma link_one_ext {X} (base : Path) (file : string) (w w' : World X) (r : result unit) :
  qca_bt_link_one base file w = (w', r) -> ext (host w') = ext (host w).
Proof.
  unfold qca_bt_link_one, bind, lift.
  destruct (unlink_missing_ok _ (host w)) as [h1 [[]|e1]] eqn:E1; simpl.
  - destruct (symlink_to _ file h1) as [h2 r2] eqn:E2. intros E. inversion E; subst.
    simpl. rewrite (symlink_ext _ _ _ _ _ E2). apply (unlink_ext _ _ _ _ E1).
  - intros E. inversion E; subst. simpl. apply (unlink_ext _ _ _ _ E1).
Qed.

Lemma link_loop_ext {X} (base : Path) (files : list string) :
  forall (w w' : World X) (r : result unit),
  for_each files (qca_bt_link_one base) w = (w', r) -> ext (host w') = ext (host w).
Proof.
  induction files as [|file files IH]; intros w w' r; simpl.
  - intros E. inversion E. reflexivity.
  - unfold bind at 1.
    destruct (qca_bt_link_one base file w) as [w1 [[]|e]] eqn:E1.
    + intros E. rewrite (IH _ _ _ E). apply (link_one_ext _ _ _ _ _ E1).
    + intros E. inversion E; subst. apply (link_one_ext _ _ _ _ _ E1).
Qed.

(** X15. On an output tree in which [qca] is a directory and none of the
    eight 01-names is a directory, the symlink patch goes through: each
    01-name ends up a link to its 21-file, whatever file or link sat there
    before, every other path of the tree is as it was (the 21-files
    included), and nothing is printed. *)
Theorem symlink_patch_replaces_only_links {X} (log : Logger) (args : Args)
    (w : World X) :
  fs (host w) !! (path_out args /: "qca") = Some Dir ->
  (forall file, file ∈ qca_bt_files ->
     fs (host w) !! (path_out args /: "qca" /: str_replace file "21" "01") <> Some Dir) ->
  exists w1, patch_qca_bt_symlinks log args w = (w1, Ok tt) /\
    (forall file, file ∈ qca_bt_files ->
       fs (host w1) !! (path_out args /: "qca" /: str_replace file "21" "01")
         = Some (Symlink file)) /\
    (forall p,
       (forall file, file ∈ qca_bt_files ->
          p <> path_out args /: "qca" /: str_replace file "21" "01") ->
       fs (host w1) !! p = fs (host w) !! p) /\
    ext (host w1) = ext (host w) /\
    printed w1 = printed w.
Proof.
  intros Hdir Hnot.
  destruct (symlink_patch_runs log args w Hdir Hnot) as [w1 Hrun].
  exists w1. split; [exact Hrun|].
  pose proof (patch_qca_bt_symlinks_quiet log args _ _ _ Hrun) as Hquiet.
  unfold patch_qca_bt_symlinks in Hrun.
  destruct (link_loop_ok _ _ qca_bt_files_plain _ _ Hrun) as (Hlinks & _ & Hframe).
  split; [exact Hlinks|]. split; [exact Hframe|].
  split; [apply (link_loop_ext _ _ _ _ _ Hrun) | exact Hquiet].
Qed.

Lemma symlink_patch_replaces_only_links_witness :
  exists w1,
    patch_qca_bt_symlinks Demo.log2 Demo.args Demo.stale_world = (w1, Ok tt) /\
    fs (host w1) !! Path_of "out/qca/crnv01.bin" = Some (Symlink "crnv21.bin") /\
    fs (host w1) !! Path_of "out/qca/crnv21.bin"
      = fs (host Demo.stale_world) !! Path_of "out/qca/crnv21.bin".
Proof.
  destruct (symlink_patch_replaces_only_links Demo.log2 Demo.args Demo.stale_world)
    as (w1 & Hrun & Hlinks & Hframe & _).
  - vm_compute. reflexivity.
  - intros file H.
    repeat (apply elem_of_cons in H as [->|H]; [vm_compute; discriminate|]).
    inversion H.
  - exists w1. split; [exact Hrun|]. split.
    + apply (Hlinks "crnv21.bin"). repeat (first [left | right]).
    + apply Hframe. intros file H.
      repeat (apply elem_of_cons in H as [->|H]; [vm_compute; discriminate|]).
      inversion H.
Defined.

(** The stale file at a 01-name before the patch, for the record. *)
Example stale_world_has_file :
  fs (host Demo.stale_world) !! Path_of "out/qca/crnv01.bin" = Some (File "stale").
Proof. vm_compute. reflexivity. Qed.


